(** * Data Strategy Playbook: state serializer and data-quality scorer

    A shallow embedding of the two pieces of logic that live beneath the
    dashboard of [data_playbook_app_v1.py]:

    - the data-quality scorer ([run_mock_dama_checks], [simulate_sql_analysis]);
    - the state serializer ([save_app_state_json], [load_app_state_json],
      [init_session_state]).

    Conventions of the embedding.

    - Python values are the inductive [pyval]; dictionaries are association
      lists in insertion order, updated with [dict_set] the way a Python
      [dict] is.
    - Python's [float] is modelled by exact rationals ([Q]); [round(x, 1)]
      is [round1], rounding half to even on the exact value.
    - Code that can raise returns [res]; [try ... except Exception] is
      [catch].
    - pandas and the standard library are outside the source: what the code
      calls from them is gathered in the record [Library] and the
      development is parametric in it. *)

From Stdlib Require Import ZArith QArith Qround Lqa Lia.
From Stdlib Require Import Bool List String Ascii DecimalString.
Import ListNotations.

Local Open Scope list_scope.
Local Open Scope string_scope.

(** ** Exceptions and results *)

Inductive exc_kind : Type :=
| TypeError | ValueError | KeyError | AttributeError | JSONDecodeError.

Record exc : Type := Exc { exc_type : exc_kind; exc_msg : string }.

Inductive res (A : Type) : Type :=
| Ok (a : A)
| Raise (e : exc).

Arguments Ok {A} a.
Arguments Raise {A} e.

Definition bind {A B : Type} (m : res A) (k : A -> res B) : res B :=
  match m with
  | Ok a => k a
  | Raise e => Raise e
  end.

Notation "x <- m ;; k" := (bind m (fun x => k))
  (at level 61, m at next level, right associativity).

(** [try: body except Exception as e: handler e] *)
Definition catch {A : Type} (body : res A) (handler : exc -> A) : A :=
  match body with
  | Ok a => a
  | Raise e => handler e
  end.

Definition exc_kind_eqb (a b : exc_kind) : bool :=
  match a, b with
  | TypeError, TypeError | ValueError, ValueError | KeyError, KeyError
  | AttributeError, AttributeError | JSONDecodeError, JSONDecodeError => true
  | _, _ => false
  end.

(** ** Numbers *)

(** Nearest integer, ties to the even neighbour. *)
Definition round_half_even (q : Q) : Z :=
  let f := Qfloor q in
  let r := (q - inject_Z f)%Q in
  match (r ?= 1 # 2)%Q with
  | Lt => f
  | Gt => (f + 1)%Z
  | Eq => if Z.even f then f else (f + 1)%Z
  end.

(** [round(x, 1)] *)
Definition round1 (q : Q) : Q := Qmake (round_half_even (q * 10)%Q) 10.

Definition Qsum (l : list Q) : Q := fold_right Qplus 0%Q l.

Definition Qnat (n : nat) : Q := inject_Z (Z.of_nat n).

(** ** Timestamps

    A [pd.Timestamp] is a wall-clock reading in nanoseconds together with
    the UTC offset of its zone ([None] for a naive timestamp).  A zone is
    identified with its offset. *)

Record Timestamp : Type := mkTs { ts_wall : Z; ts_tz : option Z }.

(** Position on the UTC axis (the wall clock itself when naive). *)
Definition ts_instant (t : Timestamp) : Z :=
  match ts_tz t with
  | Some off => (ts_wall t - off)%Z
  | None => ts_wall t
  end.

(** [==] and [hash] of timestamps: aware ones compare by instant, naive
    ones by wall clock, an aware one never equals a naive one. *)
Definition ts_eqb (a b : Timestamp) : bool :=
  match ts_tz a, ts_tz b with
  | Some _, Some _ => Z.eqb (ts_instant a) (ts_instant b)
  | None, None => Z.eqb (ts_wall a) (ts_wall b)
  | _, _ => false
  end.

Definition tz_localize_none (t : Timestamp) : Timestamp :=
  mkTs (ts_wall t) None.

Definition tz_localize (zone : Z) (t : Timestamp) : res Timestamp :=
  match ts_tz t with
  | None => Ok (mkTs (ts_wall t) (Some zone))
  | Some _ => Raise (Exc TypeError "Cannot localize tz-aware Timestamp, use tz_convert for conversions")
  end.

Definition tz_convert (zone : Z) (t : Timestamp) : res Timestamp :=
  match ts_tz t with
  | Some off => Ok (mkTs (ts_wall t - off + zone) (Some zone))
  | None => Raise (Exc TypeError "Cannot convert tz-naive Timestamp, use tz_localize to localize")
  end.

(** ** Table cells and frames *)

Inductive cell : Type :=
| CNa                       (* None, NaN, NaT *)
| CInt (z : Z)
| CFloat (q : Q)
| CStr (s : string)
| CTime (t : Timestamp).

Definition isnull (c : cell) : bool :=
  match c with CNa => true | _ => false end.

(** Equality as a hash table of values sees it ([1 == 1.0]). *)
Definition cell_eqb (a b : cell) : bool :=
  match a, b with
  | CNa, CNa => true
  | CInt x, CInt y => Z.eqb x y
  | CInt x, CFloat y => Qeq_bool (inject_Z x) y
  | CFloat x, CInt y => Qeq_bool x (inject_Z y)
  | CFloat x, CFloat y => Qeq_bool x y
  | CStr x, CStr y => String.eqb x y
  | CTime x, CTime y => ts_eqb x y
  | _, _ => false
  end.

(** A frame is kept row by row: every row carries its index label and one
    cell per column, so every column has [len(df)] entries. *)
Record DataFrame : Type := mkFrame {
  df_index_name : option string;
  df_columns : list string;
  df_rows : list (cell * list cell)
}.

Definition len_df (df : DataFrame) : nat := List.length (df_rows df).

(** [df.empty] *)
Definition df_empty (df : DataFrame) : bool :=
  match df_columns df, df_rows df with
  | [], _ => true
  | _, [] => true
  | _, _ => false
  end.

Fixpoint index_of (c : string) (cols : list string) : option nat :=
  match cols with
  | [] => None
  | x :: rest =>
      if String.eqb c x then Some O
      else match index_of c rest with
           | Some i => Some (S i)
           | None => None
           end
  end.

(** [c in df.columns] for a string label *)
Definition has_column (df : DataFrame) (c : string) : bool :=
  existsb (String.eqb c) (df_columns df).

Definition column_at (df : DataFrame) (i : nat) : list cell :=
  map (fun r => nth i (snd r) CNa) (df_rows df).

(** [df[c]] *)
Definition df_getitem (df : DataFrame) (c : string) : res (list cell) :=
  match index_of c (df_columns df) with
  | Some i => Ok (column_at df i)
  | None => Raise (Exc KeyError c)
  end.

Definition range_index (n : nat) : list cell :=
  map (fun i => CInt (Z.of_nat i)) (seq 0 n).

Fixpoint remove_nth {A : Type} (i : nat) (l : list A) : list A :=
  match i, l with
  | _, [] => []
  | O, _ :: t => t
  | S j, x :: t => x :: remove_nth j t
  end.

(** [df.set_index(c)]: the column becomes the row labels and leaves the
    columns. *)
Definition set_index (c : string) (df : DataFrame) : res DataFrame :=
  match index_of c (df_columns df) with
  | Some i =>
      Ok (mkFrame (Some c) (remove_nth i (df_columns df))
            (map (fun r => (nth i (snd r) CNa, remove_nth i (snd r))) (df_rows df)))
  | None => Raise (Exc KeyError ("None of ['" ++ c ++ "'] are in the columns"))
  end.

(** [df.reset_index()]: the row labels become the first column, named after
    the index ([index] when it has no name); the rows are renumbered. *)
Definition reset_index (df : DataFrame) : res DataFrame :=
  let name := match df_index_name df with Some n => n | None => "index" end in
  if has_column df name
  then Raise (Exc ValueError ("cannot insert " ++ name ++ ", already exists"))
  else Ok (mkFrame None (name :: df_columns df)
             (map (fun ir => (fst ir, fst (snd ir) :: snd (snd ir)))
                  (combine (range_index (len_df df)) (df_rows df)))).

(** [pd.DataFrame(d)] for a dict of equally long columns. *)
Fixpoint rows_of_columns (n : nat) (cols : list (list cell)) : list (list cell) :=
  match n with
  | O => []
  | S m => map (fun c => hd CNa c) cols :: rows_of_columns m (map (@tl cell) cols)
  end.

Definition frame_of_columns (cols : list (string * list cell)) : DataFrame :=
  let n := match cols with [] => O | c :: _ => List.length (snd c) end in
  mkFrame None (map fst cols)
    (combine (range_index n) (rows_of_columns n (map snd cols))).

(** ** Python values *)

(** Keys of the dictionaries the application builds. *)
Inductive pykey : Type :=
| KStr (s : string)
| KInt (z : Z)
| KTime (t : Timestamp).

#[warnings="-register-all"] Inductive pyval : Type :=
| PNone
| PBool (b : bool)
| PInt (z : Z)
| PFloat (q : Q)
| PStr (s : string)
| PBytes (b : string)
| PList (l : list pyval)
| PTuple (l : list pyval)
| PDict (d : list (pykey * pyval))
| PTime (t : Timestamp)
| PFrame (f : DataFrame).

Definition key_eqb (a b : pykey) : bool :=
  match a, b with
  | KStr x, KStr y => String.eqb x y
  | KInt x, KInt y => Z.eqb x y
  | KTime x, KTime y => ts_eqb x y
  | _, _ => false
  end.

Definition key_to_val (k : pykey) : pyval :=
  match k with
  | KStr s => PStr s
  | KInt z => PInt z
  | KTime t => PTime t
  end.

(** *** Dictionaries: association lists in insertion order *)

Section Dict.
Context {K V : Type} (eqb : K -> K -> bool).

Fixpoint dict_get (d : list (K * V)) (k : K) : option V :=
  match d with
  | [] => None
  | (k', v) :: rest => if eqb k k' then Some v else dict_get rest k
  end.

(** [d[k] = v]: an existing key keeps its place, a new one goes last. *)
Fixpoint dict_set (d : list (K * V)) (k : K) (v : V) : list (K * V) :=
  match d with
  | [] => [(k, v)]
  | (k', v') :: rest =>
      if eqb k k' then (k', v) :: rest else (k', v') :: dict_set rest k v
  end.

Definition dict_mem (d : list (K * V)) (k : K) : bool :=
  match dict_get d k with Some _ => true | None => false end.

(** [dict(pairs)] *)
Definition dict_of_pairs (l : list (K * V)) : list (K * V) :=
  fold_left (fun d kv => dict_set d (fst kv) (snd kv)) l [].
End Dict.

(** String-keyed dictionaries: the session state, the score results. *)
Definition sdict : Type := list (string * pyval).
Definition sget (d : sdict) (k : string) : option pyval := dict_get String.eqb d k.
Definition sset (d : sdict) (k : string) (v : pyval) : sdict := dict_set String.eqb d k v.

(** A [dict] value as the application holds it. *)
Definition pydict : Type := list (pykey * pyval).

(** [d.get(k)] and [d.get(k, default)] for a string key *)
Definition py_get (d : pydict) (k : string) : pyval :=
  match dict_get key_eqb d (KStr k) with Some v => v | None => PNone end.

Definition py_get_default (d : pydict) (k : string) (default : pyval) : pyval :=
  match dict_get key_eqb d (KStr k) with Some v => v | None => default end.

(** *** Built-in operations *)

(** [bool(v)]; a frame refuses to be a truth value. *)
Definition py_truthy (v : pyval) : res bool :=
  match v with
  | PNone => Ok false
  | PBool b => Ok b
  | PInt z => Ok (negb (Z.eqb z 0))
  | PFloat q => Ok (negb (Qeq_bool q 0))
  | PStr s => Ok (negb (String.eqb s ""))
  | PBytes b => Ok (negb (String.eqb b ""))
  | PList l | PTuple l => Ok (match l with [] => false | _ => true end)
  | PDict d => Ok (match d with [] => false | _ => true end)
  | PTime _ => Ok true
  | PFrame _ => Raise (Exc ValueError "The truth value of a DataFrame is ambiguous")
  end.

Fixpoint py_hashable (v : pyval) : bool :=
  match v with
  | PList _ | PDict _ | PFrame _ => false
  | PTuple l => forallb py_hashable l
  | _ => true
  end.

(** [v in df.columns]: the label is hashed first; only a string can be one
    of the labels. *)
Definition in_columns (df : DataFrame) (v : pyval) : res bool :=
  if py_hashable v then
    Ok (match v with PStr s => has_column df s | _ => false end)
  else Raise (Exc TypeError "unhashable type").

Definition chars_of (s : string) : list pyval :=
  map (fun a => PStr (String a EmptyString)) (list_ascii_of_string s).

(** [for x in v] *)
Definition py_iter (v : pyval) : res (list pyval) :=
  match v with
  | PList l | PTuple l => Ok l
  | PStr s => Ok (chars_of s)
  | PBytes b => Ok (map (fun a => PInt (Z.of_nat (nat_of_ascii a))) (list_ascii_of_string b))
  | PDict d => Ok (map (fun kv => key_to_val (fst kv)) d)
  | PFrame f => Ok (map PStr (df_columns f))
  | _ => Raise (Exc TypeError "object is not iterable")
  end.

(** [isinstance(v, (int, float))]; [bool] is a subclass of [int]. *)
Definition is_number (v : pyval) : bool :=
  match v with
  | PBool _ | PInt _ | PFloat _ => true
  | _ => false
  end.

Definition number_value (v : pyval) : Q :=
  match v with
  | PBool true => 1
  | PInt z => inject_Z z
  | PFloat q => q
  | _ => 0
  end.

(** A scalar used where a number is needed. *)
Definition py_number (v : pyval) : res Q :=
  if is_number v then Ok (number_value v)
  else Raise (Exc TypeError "unsupported operand type").

(** [a < b] between results: numbers with numbers, strings with strings. *)
Definition py_lt (a b : pyval) : res bool :=
  match a, b with
  | PStr x, PStr y => Ok (String.ltb x y)
  | _, _ =>
      if is_number a && is_number b
      then Ok (if Qlt_le_dec (number_value a) (number_value b) then true else false)
      else Raise (Exc TypeError "'<' not supported between instances")
  end.

(** [v == s] for a string literal [s] *)
Definition py_eq_str (v : pyval) (s : string) : bool :=
  match v with PStr x => String.eqb x s | _ => false end.

(** [[x for x in l if p x]] where the test can raise *)
Fixpoint filterM {A : Type} (p : A -> res bool) (l : list A) : res (list A) :=
  match l with
  | [] => Ok []
  | x :: rest =>
      b <- p x ;;
      rest' <- filterM p rest ;;
      Ok (if b then x :: rest' else rest')
  end.

(** ** What the code calls from pandas and the standard library *)

Record Library : Type := {
  (** [pd.to_numeric(col, errors='coerce')], entry by entry *)
  to_numeric : cell -> option Q;
  (** [pd.to_datetime(col, errors='coerce')], entry by entry: the position
      on the axis of the resulting series, in nanoseconds *)
  to_datetime : cell -> option Z;
  (** the zone of the series [pd.to_datetime] returns for a column *)
  datetime_tz : list cell -> option Z;
  (** the UTC offset of a named zone *)
  utcoffset : string -> Z;
  (** [str(v)] as an f-string formats it *)
  py_str : pyval -> string;
  (** [df.to_json(orient='split')] *)
  to_json_split : DataFrame -> string;
  (** [pd.read_json(io.StringIO(s), orient='split')] *)
  read_json_split : string -> res DataFrame;
  (** [df.to_dict(orient='records')] *)
  to_dict_records : DataFrame -> pyval;
  (** [pd.DataFrame(items)] *)
  frame_of_records : pyval -> res DataFrame;
  (** [ts.isoformat()] *)
  isoformat : Timestamp -> string;
  (** [pd.Timestamp(s)] *)
  timestamp_of_string : string -> res Timestamp;
  (** [ts.strftime(fmt)] *)
  strftime : Timestamp -> string -> string
}.

(** ** Constants of the application *)

Definition STATE_FILE : string := "playbook_state.json".
Definition DEFAULT_TIMEZONE : string := "Europe/London".
Definition DEFAULT_LOCATION : string := "London, England, UK".
Definition APP_VERSION : string := "2.4 (Advanced Placeholders)".

(** The zone is accepted by pandas, so the fallback to [None] is not taken. *)
Definition APP_TIMEZONE : option string := Some DEFAULT_TIMEZONE.
Definition APP_LOCATION : string := DEFAULT_LOCATION.

(** The system clock: the instant in UTC nanoseconds and the offset of the
    machine's local time. *)
Record Clock : Type := { clock_utc : Z; clock_local_offset : Z }.

(** ** The data-quality scorer *)

Definition NS_PER_DAY : Z := 86400000000000.

Definition dropna {A : Type} (l : list (option A)) : list A :=
  flat_map (fun o => match o with Some a => [a] | None => [] end) l.

Definition notnull (c : cell) : bool := negb (isnull c).

(** The values of a column, each kept once. *)
Fixpoint distinct (l : list cell) : list cell :=
  match l with
  | [] => []
  | x :: rest => if existsb (cell_eqb x) rest then distinct rest else x :: distinct rest
  end.

(** [series.nunique()] *)
Definition nunique (l : list cell) : nat := List.length (distinct (filter notnull l)).

Definition count {A : Type} (p : A -> bool) (l : list A) : nat :=
  List.length (filter p l).

Definition Qlt_bool (a b : Q) : bool := negb (Qle_bool b a).

(** The nested helper of [run_mock_dama_checks]. *)
Definition calculate_percentage (numerator denominator : Q) : Q :=
  if Qeq_bool denominator 0 then 100
  else round1 ((numerator / denominator) * 100)%Q.

(** [f"Error ({e})"] *)
Definition error_string (e : exc) : pyval := PStr ("Error (" ++ exc_msg e ++ ")").

(** [col and col in df.columns] *)
Definition py_and_in (df : DataFrame) (col : pyval) : res bool :=
  t <- py_truthy col ;;
  if t then in_columns df col else Ok false.

(** [df[col]] for a label held in a Python value *)
Definition getitem (df : DataFrame) (col : pyval) : res (list cell) :=
  match col with
  | PStr c => df_getitem df c
  | _ => Raise (Exc KeyError "label")
  end.

(** [df[cols].isnull().sum().sum()] *)
Fixpoint count_nulls (df : DataFrame) (cols : list pyval) : res nat :=
  match cols with
  | [] => Ok O
  | c :: rest =>
      cells <- getitem df c ;;
      n <- count_nulls df rest ;;
      Ok (count isnull cells + n)%nat
  end.

Definition same_awareness (a b : option Z) : bool :=
  match a, b with
  | Some _, Some _ | None, None => true
  | _, _ => false
  end.

(** [valid_dates[valid_dates > limit_date].shape[0]] *)
Definition count_after (tz : option Z) (valid_dates : list Z)
    (limit_tz : option Z) (limit : Q) : res nat :=
  if same_awareness tz limit_tz
  then Ok (count (fun d => Qlt_bool limit (inject_Z d)) valid_dates)
  else Raise (Exc TypeError "Cannot compare tz-naive and tz-aware datetime-like objects").

(** One entry of [results] and, when the check found failures, their number
    for [issues_summary]. *)
Definition dimension : Type := (pyval * option nat)%type.

Definition issue (n : nat) : option nat :=
  match n with O => None | _ => Some n end.

Section Scorer.
Variable L : Library.

Definition get_current_time (clk : Clock) : Timestamp :=
  match APP_TIMEZONE with
  | Some zone =>
      mkTs (clock_utc clk + utcoffset L zone) (Some (utcoffset L zone))
  | None => mkTs (clock_utc clk + clock_local_offset clk) None
  end.

(** 1. Completeness *)
Definition completeness_check (df : DataFrame) (config : pydict) : res dimension :=
  let num_rows := len_df df in
  completeness_cols <- py_iter (py_get_default config "completeness_cols" (PList [])) ;;
  present_cols <- filterM (in_columns df) completeness_cols ;;
  match present_cols with
  | _ :: _ =>
      Ok (catch
            (let total_cells := (List.length present_cols * num_rows)%nat in
             nan_cells <- count_nulls df present_cols ;;
             let completeness_score :=
               calculate_percentage (Qnat total_cells - Qnat nan_cells) (Qnat total_cells) in
             Ok (PFloat completeness_score, issue nan_cells))
            (fun e => (error_string e, None)))
  | [] => Ok (PStr "N/A (Cols missing)", None)
  end.

(** 2. Uniqueness *)
Definition uniqueness_check (df : DataFrame) (config : pydict) : res dimension :=
  let unique_col := py_get config "uniqueness_col" in
  guard <- py_and_in df unique_col ;;
  if guard then
    Ok (catch
          (column <- getitem df unique_col ;;
           let non_na_rows := filter notnull column in
           let num_non_na := List.length non_na_rows in
           let unique_ids := nunique non_na_rows in
           let uniqueness_score :=
             if (0 <? num_non_na)%nat
             then calculate_percentage (Qnat unique_ids) (Qnat num_non_na)
             else 100 in
           let duplicates := (num_non_na - unique_ids)%nat in
           Ok (PFloat uniqueness_score, issue duplicates))
          (fun e => (error_string e, None)))
  else Ok (PStr "N/A (Col missing)", None).

(** 3. Timeliness *)
Definition now_compare (series_tz : option Z) (now : Timestamp) : res Timestamp :=
  match series_tz, ts_tz now with
  | None, Some _ => Ok (tz_localize_none now)
  | Some tz, None =>
      match APP_TIMEZONE with
      | Some zone =>
          localized <- tz_localize (utcoffset L zone) now ;;
          tz_convert tz localized
      | None => Ok now
      end
  | Some tz, Some _ => tz_convert tz now
  | None, None => Ok now
  end.

Definition timeliness_check (clk : Clock) (df : DataFrame) (config : pydict)
    : res dimension :=
  let num_rows := len_df df in
  let time_col := py_get config "timeliness_col" in
  let days_limit := py_get_default config "timeliness_days" (PInt 90) in
  guard <- py_and_in df time_col ;;
  if guard then
    Ok (catch
          (column <- getitem df time_col ;;
           let dates := map (to_datetime L) column in
           let series_tz := datetime_tz L column in
           let valid_dates := dropna dates in
           match valid_dates with
           | _ :: _ =>
               let now := get_current_time clk in
               now_cmp <- now_compare series_tz now ;;
               days <- py_number days_limit ;;
               let limit_date :=
                 (inject_Z (ts_instant now_cmp) - days * inject_Z NS_PER_DAY)%Q in
               timely_records <- count_after series_tz valid_dates (ts_tz now_cmp) limit_date ;;
               let timeliness_score :=
                 calculate_percentage (Qnat timely_records) (Qnat num_rows) in
               let outdated_records := (List.length valid_dates - timely_records)%nat in
               Ok (PFloat timeliness_score, issue outdated_records)
           | [] => Ok (PStr "N/A (No valid dates)", None)
           end)
          (fun e => (error_string e, None)))
  else Ok (PStr ("N/A (Col missing or invalid limit: " ++ py_str L days_limit ++ ")"), None).

(** 4. Validity *)
Definition validity_check (df : DataFrame) (config : pydict) : res dimension :=
  let num_rows := len_df df in
  let validity_col := py_get config "validity_col" in
  guard <- py_and_in df validity_col ;;
  if guard then
    Ok (catch
          (column <- getitem df validity_col ;;
           let numeric_vals := dropna (map (to_numeric L) column) in
           let valid_vals :=
             if py_eq_str (py_get config "validity_condition") ">= 0"
             then count (fun q => Qle_bool 0 q) numeric_vals
             else List.length numeric_vals in
           let validity_score := calculate_percentage (Qnat valid_vals) (Qnat num_rows) in
           let invalid_count := (List.length numeric_vals - valid_vals)%nat in
           Ok (PFloat validity_score, issue invalid_count))
          (fun e => (error_string e, None)))
  else Ok (PStr "N/A (Col missing)", None).

(** 5. Consistency *)
Definition in_range_or_na (lo hi : Q) (s : option Q) : bool :=
  match s with
  | Some q => Qle_bool lo q && Qle_bool q hi
  | None => true
  end.

Definition consistency_check (df : DataFrame) (config : pydict) : res dimension :=
  let num_rows := len_df df in
  let consistency_col := py_get config "consistency_col" in
  let consistency_range :=
    py_get_default config "consistency_range" (PTuple [PInt 1; PInt 5]) in
  guard <- py_and_in df consistency_col ;;
  match guard, consistency_range with
  | true, PTuple [min_val; max_val] =>
      Ok (catch
            (column <- getitem df consistency_col ;;
             let scores := map (to_numeric L) column in
             lo <- py_number min_val ;;
             hi <- py_number max_val ;;
             let consistent_scores := count (in_range_or_na lo hi) scores in
             let consistency_score :=
               calculate_percentage (Qnat consistent_scores) (Qnat num_rows) in
             let inconsistent_count := (num_rows - consistent_scores)%nat in
             Ok (PFloat consistency_score, issue inconsistent_count))
            (fun e => (error_string e, None)))
  | _, _ => Ok (PStr "N/A (Col/Range missing)", None)
  end.

Definition record_dimension (name : string) (d : dimension)
    (acc : sdict * list (string * nat)) : sdict * list (string * nat) :=
  (sset (fst acc) name (fst d),
   match snd d with
   | Some n => dict_set String.eqb (snd acc) name n
   | None => snd acc
   end).

Definition run_mock_dama_checks (clk : Clock) (df : option DataFrame)
    (config : pydict) : res (sdict * list (string * nat)) :=
  match df with
  | None => Ok ([("Overall Status", PStr "Error: No data provided.")], [])
  | Some df =>
      if df_empty df
      then Ok ([("Overall Status", PStr "Error: No data provided.")], [])
      else
        c <- completeness_check df config ;;
        let acc := record_dimension "Completeness" c ([], []) in
        u <- uniqueness_check df config ;;
        let acc := record_dimension "Uniqueness" u acc in
        t <- timeliness_check clk df config ;;
        let acc := record_dimension "Timeliness" t acc in
        v <- validity_check df config ;;
        let acc := record_dimension "Validity" v acc in
        k <- consistency_check df config ;;
        Ok (record_dimension "Consistency" k acc)
  end.
End Scorer.

(** ** The trust score *)

(** [min(d, key=lambda k: d.get(k, 101))]: the first key whose value is
    smallest; every later value is compared with the current smallest. *)
Fixpoint min_by_value (best : string * pyval) (rest : sdict) : res string :=
  match rest with
  | [] => Ok (fst best)
  | kv :: rest' =>
      smaller <- py_lt (snd kv) (snd best) ;;
      min_by_value (if smaller then kv else best) rest'
  end.

Definition py_min_key (d : sdict) : res string :=
  match d with
  | [] => Raise (Exc ValueError "min() arg is an empty sequence")
  | kv :: rest => min_by_value kv rest
  end.

(** [', '.join(l)] *)
Fixpoint join (sep : string) (l : list string) : string :=
  match l with
  | [] => ""
  | [x] => x
  | x :: rest => x ++ sep ++ join sep rest
  end.

Definition newline : string := String (ascii_of_nat 10) EmptyString.

Section Analysis.
Variable L : Library.

(** [[v for v in dama_results.values() if isinstance(v, (int, float))]] *)
Definition valid_scores_of (dama_results : sdict) : list Q :=
  map number_value (filter is_number (map snd dama_results)).

(** [round(sum(valid_scores) / len(valid_scores), 1) if valid_scores else 0] *)
Definition trust_score_of (valid_scores : list Q) : pyval :=
  match valid_scores with
  | [] => PInt 0
  | _ :: _ =>
      PFloat (round1 (Qsum valid_scores / Qnat (List.length valid_scores)))
  end.

Definition simulate_sql_analysis (clk : Clock) (df : option DataFrame)
    (config : pydict) : res (string * pyval * sdict * list (string * nat)) :=
  let no_data := Ok ("-- No data for analysis --", PInt 0, [], []) in
  match df with
  | None => no_data
  | Some frame =>
      if df_empty frame then no_data
      else
        checks <- run_mock_dama_checks L clk df config ;;
        let dama_results := fst checks in
        let issues_summary := snd checks in
        let valid_scores := valid_scores_of dama_results in
        let trust_score := trust_score_of valid_scores in
        (* Mock SQL query representation *)
        let select_cols := filter (has_column frame) ["Region"; "ProductCategory"] in
        let group_by_cols : string :=
          match select_cols with [] => "1" | _ => join ", " select_cols end in
        has_validity <- in_columns frame (py_get config "validity_col") ;;
        let avg_trans : string :=
          if has_validity
          then "AVG(" ++ py_str L (py_get_default config "validity_col" (PStr "Amount")) ++ ")"
          else "'N/A'" in
        has_uniqueness <- in_columns frame (py_get config "uniqueness_col") ;;
        let unique_cust : string :=
          if has_uniqueness
          then "COUNT(DISTINCT " ++ py_str L (py_get_default config "uniqueness_col" (PStr "ID")) ++ ")"
          else "COUNT(*)" in
        let low_sat_col := py_get_default config "consistency_col" (PStr "Score") in
        has_low_sat <- in_columns frame low_sat_col ;;
        let low_sat_cond : string :=
          if has_low_sat
          then "WHEN " ++ py_str L low_sat_col ++ " < 3 THEN 1 ELSE 0"
          else "'N/A'" in
        (* the placeholder insight names the lowest scoring dimension *)
        lowest <- match valid_scores with
                  | [] => Ok "N/A"
                  | _ :: _ => py_min_key dama_results
                  end ;;
        let ai_insight : string :=
          "AI Insight Placeholder: Data quality checks reveal potential issues (see DAMA results). Average trust score reflects these checks. Issues found in: "
          ++ match issues_summary with
             | [] => "None"
             | _ => join ", " (map fst issues_summary)
             end
          ++ ". Recommend investigating '" ++ lowest ++ "'." in
        let mock_sql : string :=
          newline ++ "-- Mock Analysis Summary --" ++ newline
          ++ "SELECT" ++ newline
          ++ "    " ++ match select_cols with
                       | [] => "'Overall' AS Grouping"
                       | _ => group_by_cols
                       end ++ "," ++ newline
          ++ "    COUNT(*) AS total_records," ++ newline
          ++ "    " ++ avg_trans ++ " AS avg_transaction," ++ newline
          ++ "    " ++ unique_cust ++ " AS unique_identifiers," ++ newline
          ++ "    SUM(CASE " ++ low_sat_cond ++ " END) AS low_satisfaction_count -- Example aggregation" ++ newline
          ++ "FROM your_data_table -- Represents the uploaded/simulated data" ++ newline
          ++ match select_cols with
             | [] => ""
             | _ => ("GROUP BY " ++ group_by_cols)%string
             end ++ ";" ++ newline ++ newline
          ++ "-- MOCK TRUST SCORE: " ++ py_str L trust_score ++ "% --" ++ newline
          ++ "-- Based on DAMA Checks: "
          ++ join ", " (map (fun kv => fst kv ++ ": " ++ py_str L (snd kv) ++ "%")
                            (filter (fun kv => is_number (snd kv)) dama_results))
          ++ newline
          ++ "-- AI Insight: " ++ ai_insight ++ newline ++ "    " in
        Ok (mock_sql, trust_score, dama_results, issues_summary)
  end.
End Analysis.

(** ** Built-in content of the application *)

Definition mock_sectors : list string :=
  ["Mobility";
   "Resilience";
   "Utilities";
   "Healthcare";
   "Finance";
   "Retail";
   "Technology"].

Definition mock_personas : list string :=
  ["Chief Data Officer (CDO)";
   "Head of Operations";
   "Lead Data Architect";
   "Marketing Manager";
   "Data Scientist";
   "Compliance Officer"].

Definition mock_compliance_standards : list string :=
  ["GDPR";
   "CCPA";
   "HIPAA";
   "SOX";
   "ISO 27001";
   "Internal Policy v2.0"].

Definition mock_maturity_dimensions : list string :=
  ["Strategy & Vision";
   "Data Governance";
   "Data Quality";
   "Technology & Architecture";
   "People & Skills";
   "Data Usage & Analytics";
   "Innovation & Value"].

Definition TABS_keys : list string :=
  ["🏠 Landing Page";
   "📄 Executive Summary";
   "🎙️ Stakeholder Interviews";
   "🔍 Data Upload & Analysis";
   "🏛️ Data Governance";
   "📈 Maturity Assessment";
   "🗺️ Roadmap Builder";
   "📤 Export"].

Definition default_interview_questions : pyval :=
  PDict [
    (KStr "Chief Data Officer (CDO)", PList [
        PStr "What are the top 3 strategic goals data should support?";
        PStr "How is data literacy perceived?";
        PStr "Biggest roadblocks to being data-driven?";
        PStr "How is data value measured?";
        PStr "Current state of data governance maturity?";
        PStr "Using data for competitive advantage?";
        PStr "Needed investments in platforms/tools?";
        PStr "Impact of privacy/security concerns?";
        PStr "Role of AI/ML in future strategy?";
        PStr "Satisfaction with reporting capabilities?"]);
    (KStr "Head of Operations", PList [
        PStr "Reliability of operational reporting data?";
        PStr "Biggest data quality issues impacting ops?";
        PStr "Are dashboards timely and actionable?";
        PStr "Manual effort in data collection/prep?";
        PStr "Do front-line staff have needed data?";
        PStr "Impact of data inconsistencies?";
        PStr "Processes most improved with better data?";
        PStr "Sufficient training on data tools?";
        PStr "How is data used for operational KPIs?";
        PStr "Challenges accessing cross-departmental data?"]);
    (KStr "Lead Data Architect", PList [
        PStr "Current state of data architecture (scalability, flexibility)?";
        PStr "Main data integration challenges?";
        PStr "Documentation state of sources/pipelines?";
        PStr "Is data storage optimized (cost/performance)?";
        PStr "Process for introducing new data tech?";
        PStr "Robustness of data security framework?";
        PStr "Effectiveness of MDM/reference data management?";
        PStr "Technical limitations hindering advanced analytics?";
        PStr "How is data lineage tracked?";
        PStr "Improvements needed in data modeling?"]);
    (KStr "Marketing Manager", PList [
        PStr "Effectiveness of customer segmentation?";
        PStr "Accuracy/timeliness of campaign tracking?";
        PStr "Challenges accessing customer journey data?";
        PStr "Confidence in personalization data?";
        PStr "Ability to calculate marketing ROI accurately?";
        PStr "Missing data sources for complete customer view?";
        PStr "Ease of A/B testing and analysis?";
        PStr "Right tools for marketing analytics?";
        PStr "How does data inform content strategy?";
        PStr "Data privacy constraints limiting activities?"]);
    (KStr "Data Scientist", PList [
        PStr "Accessibility of data for model building?";
        PStr "Quality of data available for analysis?";
        PStr "Availability of tools/platforms for ML?";
        PStr "Collaboration process with domain experts?";
        PStr "Process for deploying models into production?";
        PStr "Monitoring model performance and drift?";
        PStr "Challenges in feature engineering?";
        PStr "Ethical considerations in model development?";
        PStr "Availability of compute resources?";
        PStr "Integration of external datasets?"]);
    (KStr "Compliance Officer", PList [
        PStr "Effectiveness of current data privacy controls?";
        PStr "Process for handling data subject requests (DSRs)?";
        PStr "Data retention policy adherence?";
        PStr "Audit trails for sensitive data access?";
        PStr "Training level on data compliance requirements?";
        PStr "Challenges in monitoring regulatory changes?";
        PStr "Data classification accuracy?";
        PStr "Incident response plan for data breaches?";
        PStr "Third-party data sharing risk management?";
        PStr "Alignment with specific regulations (GDPR, CCPA etc.)?"])].

Definition default_raci_data : list (string * list cell) :=
  [("Activity",
    [CStr "Define Data Quality Rules"; CStr "Approve Master Data Changes"; CStr "Monitor Data Pipeline Health"; CStr "Ensure GDPR Compliance"; CStr "Develop Analytics Models"; CStr "Manage Data Dictionary"; CStr "Set Data Access Policy"]);
   ("CDO",
    [CStr "A"; CStr "A"; CStr "R"; CStr "A"; CStr "S"; CStr "A"; CStr "A"]);
   ("Head of Operations",
    [CStr "C"; CStr "R"; CStr "A"; CStr "C"; CStr "I"; CStr "C"; CStr "C"]);
   ("Lead Data Architect",
    [CStr "S"; CStr "I"; CStr "R"; CStr "I"; CStr "R"; CStr "R"; CStr "S"]);
   ("Data Steward (Sales)",
    [CStr "R"; CStr "C"; CStr "I"; CStr "R"; CStr "C"; CStr "R"; CStr "I"]);
   ("IT Security",
    [CStr "I"; CStr "I"; CStr "C"; CStr "R"; CStr "I"; CStr "I"; CStr "R"]);
   ("Compliance Officer",
    [CStr "C"; CStr "I"; CStr "I"; CStr "A"; CStr "C"; CStr "C"; CStr "A"]);
   ("Data Scientist",
    [CStr "I"; CStr "I"; CStr "C"; CStr "I"; CStr "A"; CStr "C"; CStr "I"])].

Definition default_raci_legend : string :=
  "R: Responsible, A: Accountable, C: Consulted, I: Informed, S: Support".

Definition default_roadmap_items : list (string * list (list (string * cell))) :=
  [("Quick Wins (0-3 Months)",
    [[("ID", CStr "QW1"); ("Task", CStr "Implement Basic Data Quality Dashboard"); ("Owner", CStr "Data Steward (Sales)"); ("Effort", CStr "Medium"); ("Cost", CStr "$"); ("Status", CStr "Not Started"); ("Progress (%)", CInt 0); ("Dependencies (IDs)", CStr "")];
     [("ID", CStr "QW2"); ("Task", CStr "Document Top 5 Critical Data Elements"); ("Owner", CStr "Lead Data Architect"); ("Effort", CStr "Low"); ("Cost", CStr "$"); ("Status", CStr "Not Started"); ("Progress (%)", CInt 0); ("Dependencies (IDs)", CStr "")];
     [("ID", CStr "QW3"); ("Task", CStr "Conduct Data Literacy Survey"); ("Owner", CStr "CDO"); ("Effort", CStr "Low"); ("Cost", CStr "$"); ("Status", CStr "Not Started"); ("Progress (%)", CInt 0); ("Dependencies (IDs)", CStr "")]]);
   ("Mid-Term (3-12 Months)",
    [[("ID", CStr "MT1"); ("Task", CStr "Establish Data Governance Council"); ("Owner", CStr "CDO"); ("Effort", CStr "High"); ("Cost", CStr "$$"); ("Status", CStr "Not Started"); ("Progress (%)", CInt 0); ("Dependencies (IDs)", CStr "QW3")];
     [("ID", CStr "MT2"); ("Task", CStr "Implement Master Data Management (MDM) for Customer Domain"); ("Owner", CStr "Lead Data Architect"); ("Effort", CStr "High"); ("Cost", CStr "$$$"); ("Status", CStr "Not Started"); ("Progress (%)", CInt 0); ("Dependencies (IDs)", CStr "QW2,MT1")];
     [("ID", CStr "MT3"); ("Task", CStr "Roll out Self-Service BI Tool Training"); ("Owner", CStr "Head of Operations"); ("Effort", CStr "Medium"); ("Cost", CStr "$$"); ("Status", CStr "Not Started"); ("Progress (%)", CInt 0); ("Dependencies (IDs)", CStr "MT1")]]);
   ("Long-Term (12+ Months)",
    [[("ID", CStr "LT1"); ("Task", CStr "Migrate to Cloud Data Warehouse"); ("Owner", CStr "Lead Data Architect"); ("Effort", CStr "Very High"); ("Cost", CStr "$$$$$"); ("Status", CStr "Not Started"); ("Progress (%)", CInt 0); ("Dependencies (IDs)", CStr "MT2")];
     [("ID", CStr "LT2"); ("Task", CStr "Develop Predictive Maintenance Model"); ("Owner", CStr "Data Scientist"); ("Effort", CStr "High"); ("Cost", CStr "$$$"); ("Status", CStr "Not Started"); ("Progress (%)", CInt 0); ("Dependencies (IDs)", CStr "LT1")];
     [("ID", CStr "LT3"); ("Task", CStr "Integrate AI for Customer Personalization"); ("Owner", CStr "Marketing Manager"); ("Effort", CStr "High"); ("Cost", CStr "$$$$"); ("Status", CStr "Not Started"); ("Progress (%)", CInt 0); ("Dependencies (IDs)", CStr "MT2,LT1")]])].

Definition default_maturity_criteria : pyval :=
  PDict [
    (KStr "Strategy & Vision", PDict [
        (KInt 1, PStr "Data strategy undefined or ad-hoc.");
        (KInt 2, PStr "Basic awareness of data's potential; strategy documented but not integrated.");
        (KInt 3, PStr "Defined data strategy aligned with some business units; roadmap exists.");
        (KInt 4, PStr "Enterprise-wide data strategy actively managed, measured, and linked to business outcomes.");
        (KInt 5, PStr "Data strategy drives business innovation; predictive and adaptive.")]);
    (KStr "Data Governance", PDict [
        (KInt 1, PStr "No formal governance; data managed locally.");
        (KInt 2, PStr "Basic policies emerging; some roles defined (e.g., DBAs).");
        (KInt 3, PStr "Formal governance program established; stewards assigned; core policies defined.");
        (KInt 4, PStr "Governance framework consistently enforced; metrics tracked; policies cover most data.");
        (KInt 5, PStr "Proactive governance integrated into lifecycle; automated policy enforcement; continuous improvement.")]);
    (KStr "Data Quality", PDict [
        (KInt 1, PStr "Data quality unknown or poor; reactive fixes.");
        (KInt 2, PStr "Basic DQ checks implemented in some systems; awareness growing.");
        (KInt 3, PStr "Defined DQ processes and rules; monitoring in place for critical data.");
        (KInt 4, PStr "DQ metrics actively managed and reported; root cause analysis performed.");
        (KInt 5, PStr "Proactive DQ management embedded; automated remediation; DQ culture established.")]);
    (KStr "Technology & Architecture", PDict [
        (KInt 1, PStr "Siloed systems; limited integration; basic reporting tools.");
        (KInt 2, PStr "Some data consolidation (e.g., basic data mart); standard reporting tools used.");
        (KInt 3, PStr "Defined architecture (e.g., data warehouse); integration patterns established; BI tools available.");
        (KInt 4, PStr "Modern, scalable platform (e.g., cloud DWH/Lakehouse); self-service analytics enabled; metadata management tools.");
        (KInt 5, PStr "Flexible, integrated architecture supporting advanced analytics/AI; automated data pipelines; data fabric concepts.")]);
    (KStr "People & Skills", PDict [
        (KInt 1, PStr "Limited data skills; reliance on IT.");
        (KInt 2, PStr "Some analysts present; basic data literacy in pockets.");
        (KInt 3, PStr "Defined data roles; formal training programs initiated; growing data literacy.");
        (KInt 4, PStr "Data skills mapped and developed strategically; data literacy widespread; collaboration between IT/business.");
        (KInt 5, PStr "Data-centric culture; specialized skills available (AI/ML); continuous learning environment.")]);
    (KStr "Data Usage & Analytics", PDict [
        (KInt 1, PStr "Basic historical reporting (spreadsheets, static reports).");
        (KInt 2, PStr "Standardized operational reporting; some ad-hoc querying.");
        (KInt 3, PStr "Interactive dashboards and BI; descriptive analytics common.");
        (KInt 4, PStr "Predictive analytics used in key areas; self-service analytics widely adopted.");
        (KInt 5, PStr "Prescriptive analytics and AI drive decisions; data monetization explored; embedded analytics.")]);
    (KStr "Innovation & Value", PDict [
        (KInt 1, PStr "Data seen as an operational byproduct.");
        (KInt 2, PStr "Data used for basic cost savings or efficiency.");
        (KInt 3, PStr "Data recognized as an asset; used to improve specific processes or products.");
        (KInt 4, PStr "Data actively used for competitive advantage, new revenue streams, or strategic insights.");
        (KInt 5, PStr "Data is central to innovation; drives new business models; ecosystem data sharing.")])].

(** [pd.DataFrame(items)] for the literal records above, which all carry
    the same keys. *)
Definition frame_of_rows (items : list (list (string * cell))) : DataFrame :=
  mkFrame None
    (match items with [] => [] | r :: _ => map fst r end)
    (combine (range_index (List.length items)) (map (map snd) items)).

(** [pd.DataFrame(default_raci_data).set_index('Activity')] *)
Definition default_raci_frame : DataFrame :=
  match set_index "Activity" (frame_of_columns default_raci_data) with
  | Ok df => df
  | Raise _ => frame_of_columns default_raci_data
  end.

(** [{category: pd.DataFrame(items) for category, items in default_roadmap_items.items()}] *)
Definition default_roadmap_frames : pyval :=
  PDict (map (fun ci => (KStr (fst ci), PFrame (frame_of_rows (snd ci))))
             default_roadmap_items).

Definition default_dq_rules_config : pyval :=
  PDict [
    (KStr "completeness_cols",
     PList [PStr "CustomerID"; PStr "TransactionAmount"; PStr "SatisfactionScore"]);
    (KStr "uniqueness_col", PStr "CustomerID");
    (KStr "timeliness_col", PStr "PurchaseDate");
    (KStr "timeliness_days", PInt 90);
    (KStr "validity_col", PStr "TransactionAmount");
    (KStr "validity_condition", PStr ">= 0");
    (KStr "consistency_col", PStr "SatisfactionScore");
    (KStr "consistency_range", PTuple [PInt 1; PInt 5])].

(** ** JSON documents and the state file *)

#[warnings="-register-all"] Inductive json : Type :=
| JNull
| JBool (b : bool)
| JInt (z : Z)
| JFloat (q : Q)
| JStr (s : string)
| JArr (items : list json)
| JObj (members : list (string * json)).

(** [str(z)] *)
Definition str_of_Z (z : Z) : string := NilZero.string_of_int (Z.to_int z).

Definition not_serializable (what : string) : exc :=
  Exc TypeError ("Object of type " ++ what ++ " is not JSON serializable").

(** The encoder of [json.dump]: tuples are written as arrays, integer keys
    as their decimal text; bytes, timestamps and frames are refused. *)
Fixpoint json_encode (v : pyval) : res json :=
  match v with
  | PNone => Ok JNull
  | PBool b => Ok (JBool b)
  | PInt z => Ok (JInt z)
  | PFloat q => Ok (JFloat q)
  | PStr s => Ok (JStr s)
  | PBytes _ => Raise (not_serializable "bytes")
  | PTime _ => Raise (not_serializable "Timestamp")
  | PFrame _ => Raise (not_serializable "DataFrame")
  | PList l | PTuple l =>
      items <- (fix encode_items (l : list pyval) : res (list json) :=
                  match l with
                  | [] => Ok []
                  | x :: rest =>
                      x' <- json_encode x ;;
                      rest' <- encode_items rest ;;
                      Ok (x' :: rest')
                  end) l ;;
      Ok (JArr items)
  | PDict d =>
      members <- (fix encode_members (d : list (pykey * pyval)) : res (list (string * json)) :=
                    match d with
                    | [] => Ok []
                    | (k, x) :: rest =>
                        k' <- match k with
                              | KStr s => Ok s
                              | KInt z => Ok (str_of_Z z)
                              | KTime _ =>
                                  Raise (Exc TypeError
                                    "keys must be str, int, float, bool or None, not Timestamp")
                              end ;;
                        x' <- json_encode x ;;
                        rest' <- encode_members rest ;;
                        Ok ((k', x') :: rest')
                    end) d ;;
      Ok (JObj members)
  end.

(** The decoder of [json.load]: arrays become lists, objects become
    dictionaries with string keys, a repeated member name keeps its last
    value. *)
Fixpoint json_decode (j : json) : pyval :=
  match j with
  | JNull => PNone
  | JBool b => PBool b
  | JInt z => PInt z
  | JFloat q => PFloat q
  | JStr s => PStr s
  | JArr items => PList (map json_decode items)
  | JObj members =>
      PDict (dict_of_pairs key_eqb
               (map (fun m => (KStr (fst m), json_decode (snd m))) members))
  end.

(** What [STATE_FILE] holds: text that [json.load] parses to a document, or
    text that it rejects. *)
Inductive file_content : Type :=
| Garbage
| Doc (j : json).

(** Messages shown to the user. *)
Inductive ui_msg : Type :=
| st_warning (text : string)
| st_sidebar_error (text : string).

Definition is_warning (m : ui_msg) : bool :=
  match m with st_warning _ => true | _ => false end.

Fixpoint ends_with (suffix s : string) : bool :=
  if String.eqb s suffix then true
  else match s with
       | EmptyString => false
       | String _ rest => ends_with suffix rest
       end.

Definition is_dict (v : pyval) : bool :=
  match v with PDict _ => true | _ => false end.

(** ** The state serializer *)

Definition keys_to_persist : list string :=
  ["project_metadata"; "selected_sector"; "uploaded_logo_bytes";
   "editable_exec_summary"; "show_summary_edit";
   "interview_confidence"; "interview_notes"; "interview_questions";
   "uploaded_interview_files";
   "dq_rules_config";
   "governance_scores"; "raci_df_json"; "selected_compliance"; "business_glossary";
   "maturity_scores"; "maturity_evidence"; "maturity_assessments_history";
   "roadmap_data";
   "export_options"].

(** The session state: a dictionary with string keys. *)
Definition session_state : Type := sdict.

Definition as_pydict (d : sdict) : pyval :=
  PDict (map (fun kv => (KStr (fst kv), snd kv)) d).

(** [str(k)] for a key that is not a timestamp *)
Definition key_name (k : pykey) : string :=
  match k with
  | KStr s => s
  | KInt z => str_of_Z z
  | KTime t => str_of_Z (ts_wall t)
  end.

(** [json.load(f)] *)
Definition json_load (content : file_content) : res pyval :=
  match content with
  | Doc j => Ok (json_decode j)
  | Garbage => Raise (Exc JSONDecodeError "Expecting value")
  end.

(** [loaded_state.items()] *)
Definition py_items (v : pyval) : res (list (string * pyval)) :=
  match v with
  | PDict d => Ok (map (fun kv => (key_name (fst kv), snd kv)) d)
  | _ => Raise (Exc AttributeError "object has no attribute 'items'")
  end.

Section Serializer.
Variable L : Library.

(** [ts.isoformat() if isinstance(ts, pd.Timestamp) else str(ts)] *)
Definition history_key (ts : pykey) : string :=
  match ts with
  | KTime t => isoformat L t
  | _ => key_name ts
  end.

(** [{cat: df.to_dict(orient='records') for cat, df in value.items()
      if isinstance(df, pd.DataFrame)}] *)
Definition roadmap_records (value : pydict) : pydict :=
  dict_of_pairs key_eqb
    (flat_map (fun cd => match snd cd with
                         | PFrame df => [(fst cd, to_dict_records L df)]
                         | _ => []
                         end) value).

(** [{history_key(ts): scores for ts, scores in value.items()}] *)
Definition history_records (value : pydict) : pydict :=
  dict_of_pairs key_eqb
    (map (fun ts_scores => (KStr (history_key (fst ts_scores)), snd ts_scores)) value).

(** The chain of [isinstance] tests of [save_app_state_json] for one key:
    what is stored for it, or [None] when the key is left out.  numpy
    scalars and arrays are not modelled. *)
Definition persist_value (key : string) (value : pyval) : res (option pyval) :=
  match value with
  | PFrame df =>
      if String.eqb key "raci_df_json"
      then (flat <- reset_index df ;; Ok (Some (PStr (to_json_split L flat))))
      else Ok (Some (PStr (to_json_split L df)))
  | PDict d =>
      if String.eqb key "roadmap_data"
      then Ok (Some (PDict (roadmap_records d)))
      else if String.eqb key "maturity_assessments_history"
      then Ok (Some (PDict (history_records d)))
      else Ok (Some value)
  | PList _ | PStr _ | PInt _ | PFloat _ | PBool _ | PNone => Ok (Some value)
  | PTuple _ | PBytes _ | PTime _ => Ok None
  end.

(** The loop over [keys_to_persist]. *)
Fixpoint collect_state (keys : list string) (st : session_state)
    (state_to_save : sdict) : res sdict :=
  match keys with
  | [] => Ok state_to_save
  | key :: rest =>
      match sget st key with
      | Some value =>
          stored <- persist_value key value ;;
          collect_state rest st
            (match stored with
             | Some v => sset state_to_save key v
             | None => state_to_save
             end)
      | None => collect_state rest st state_to_save
      end
  end.

(** Returns what the file holds afterwards, the boolean outcome and the
    messages shown.  [json.dump] writes while it encodes, so a failed dump
    leaves an incomplete document behind. *)
Definition save_app_state_json (st : session_state)
    : res (file_content * bool * list ui_msg) :=
  state_to_save <- collect_state keys_to_persist st [] ;;
  Ok (catch
        (j <- json_encode (as_pydict state_to_save) ;;
         Ok (Doc j, true, []))
        (fun e => (Garbage, false,
                   [st_sidebar_error ("Error saving state to JSON: " ++ exc_msg e)]))).

(** *** Loading *)

Definition load_raci (key value : string) (st : session_state)
    : session_state * list ui_msg :=
  catch
    (df <- read_json_split L value ;;
     (* Check if 'Activity' column exists before setting index *)
     if has_column df "Activity"
     then (indexed <- set_index "Activity" df ;;
           Ok (sset st key (PFrame indexed), []))
     else Ok (sset st key (PFrame default_raci_frame),
              [st_warning ("Loaded RACI data for key '" ++ key
                           ++ "' missing 'Activity' column. Using default.")]))
    (fun e => (sset st key (PFrame default_raci_frame),
               [st_warning ("Could not load RACI DataFrame state for key '" ++ key
                            ++ "': " ++ exc_msg e ++ ". Using default.")])).

(** [{cat: pd.DataFrame(items) for cat, items in value.items()}] *)
Fixpoint frames_of_items (value : pydict) : res pydict :=
  match value with
  | [] => Ok []
  | (cat, items) :: rest =>
      df <- frame_of_records L items ;;
      rest' <- frames_of_items rest ;;
      Ok ((cat, PFrame df) :: rest')
  end.

Definition load_roadmap (key : string) (value : pydict) (st : session_state)
    : session_state * list ui_msg :=
  catch
    (frames <- frames_of_items value ;;
     Ok (sset st key (PDict frames), []))
    (fun e => (sset st key default_roadmap_frames,
               [st_warning ("Could not load Roadmap state for key '" ++ key
                            ++ "': " ++ exc_msg e ++ ". Using default.")])).

(** [pd.Timestamp(ts_str)] *)
Definition timestamp_of_key (k : pykey) : res Timestamp :=
  match k with
  | KStr s => timestamp_of_string L s
  | KInt z => Ok (mkTs z None)
  | KTime t => Ok t
  end.

(** The inner loop over the history: a [ValueError] skips the entry with a
    warning, any other failure leaves the loop. *)
Fixpoint parse_history (items : pydict) (history_data : pydict)
    : list ui_msg * res pydict :=
  match items with
  | [] => ([], Ok history_data)
  | (ts_str, scores) :: rest =>
      match timestamp_of_key ts_str with
      | Ok ts => parse_history rest (dict_set key_eqb history_data (KTime ts) scores)
      | Raise e =>
          if exc_kind_eqb (exc_type e) ValueError
          then
            let out := parse_history rest history_data in
            (st_warning ("Could not parse timestamp '" ++ key_name ts_str
                         ++ "' in maturity history. Skipping.") :: fst out,
             snd out)
          else ([], Raise e)
      end
  end.

Definition load_history (key : string) (value : pydict) (st : session_state)
    : session_state * list ui_msg :=
  let out := parse_history value [] in
  match snd out with
  | Ok history_data => (sset st key (PDict history_data), fst out)
  | Raise e =>
      (sset st key (PDict []),
       (fst out ++ [st_warning ("Could not load Maturity History state for key '" ++ key
                               ++ "': " ++ exc_msg e ++ ". Using default.")])%list)
  end.

Definition load_frame (key value : string) (st : session_state)
    : session_state * list ui_msg :=
  catch
    (df <- read_json_split L value ;; Ok (sset st key (PFrame df), []))
    (fun e => (st, [st_warning ("Could not load DataFrame state for key '" ++ key
                                ++ "': " ++ exc_msg e ++ ". Skipping.")])).

(** One turn of the loop of [load_app_state_json].  The tests of the
    source are on the key and on the type of the value; the cases below
    are the same tests, grouped by type. *)
Definition load_key (key : string) (value : pyval) (st : session_state)
    : session_state * list ui_msg :=
  match value with
  | PStr s =>
      if String.eqb key "raci_df_json" then load_raci key s st
      else if ends_with "_df_json" key then load_frame key s st
      else (sset st key value, [])
  | PDict d =>
      if String.eqb key "roadmap_data" then load_roadmap key d st
      else if String.eqb key "maturity_assessments_history" then load_history key d st
      else (sset st key value, [])
  | _ => (sset st key value, [])
  end.

Fixpoint load_items (items : list (string * pyval)) (st : session_state)
    : session_state * list ui_msg :=
  match items with
  | [] => (st, [])
  | (key, value) :: rest =>
      let step := load_key key value st in
      let out := load_items rest (fst step) in
      (fst out, (snd step ++ snd out)%list)
  end.

(** *** Defaults *)

Definition defaults (clk : Clock) : list (string * pyval) :=
  let now := get_current_time L clk in
  [ ("app_version", PStr APP_VERSION);
    ("state_initialized", PBool true);
    ("current_tab", PStr "🏠 Landing Page");
    ("project_metadata",
     PDict [ (KStr "Project Name", PStr "Enterprise Data Strategy Initiative");
             (KStr "Project Lead", PStr "TBD");
             (KStr "Client Name", PStr "Internal");
             (KStr "Generated Date", PStr (strftime L now "%Y-%m-%d"));
             (KStr "Generated Time",
              PStr (match ts_tz now with
                    | Some _ => strftime L now "%H:%M:%S %Z"
                    | None => strftime L now "%H:%M:%S"
                    end));
             (KStr "Generated From", PStr APP_LOCATION) ]);
    ("selected_sector", PStr (hd "" mock_sectors));
    ("uploaded_logo_bytes", PNone);
    ("exec_summary_text", PStr "*(Auto-generated summary - requires analysis)*");
    ("editable_exec_summary", PStr "");
    ("show_summary_edit", PBool false);
    ("data_trust_score", PInt 0);
    ("avg_stakeholder_confidence", PStr "N/A");
    ("interview_confidence", PDict []);
    ("interview_notes", PDict []);
    ("interview_questions", default_interview_questions);
    ("uploaded_interview_files", PDict []);
    ("current_data", PNone);
    ("current_data_filename", PNone);
    ("data_analysis_done", PBool false);
    ("dama_results", PDict []);
    ("mock_sql", PStr "-- Analysis not run --");
    ("profiling_results", PNone);
    ("data_analysis_issues", PDict []);
    ("dq_rules_config", default_dq_rules_config);
    ("governance_scores",
     PDict [ (KStr "Policy & Standards", PInt 50); (KStr "Data Stewardship", PInt 40);
             (KStr "Data Quality Framework", PInt 60); (KStr "Metadata Management", PInt 30);
             (KStr "Security & Privacy", PInt 70); (KStr "Compliance Adherence", PInt 65) ]);
    ("raci_df_json", PFrame default_raci_frame);
    ("selected_compliance", PList (map PStr (firstn 2 mock_compliance_standards)));
    ("business_glossary",
     PDict [ (KStr "Data Maturity",
              PStr "The extent to which an organization utilizes its data resources...");
             (KStr "Data Governance",
              PStr "The exercise of authority and control over data assets...");
             (KStr "MDM", PStr "Master Data Management disciplines...") ]);
    ("maturity_scores", PDict (map (fun dim => (KStr dim, PInt 2)) mock_maturity_dimensions));
    ("maturity_evidence", PDict (map (fun dim => (KStr dim, PStr "")) mock_maturity_dimensions));
    ("maturity_criteria", default_maturity_criteria);
    ("maturity_persona", PStr (hd "" mock_personas));
    ("overall_maturity", PFloat 0);
    ("maturity_assessments_history", PDict []);
    ("compare_assessment_ts1", PNone);
    ("compare_assessment_ts2", PNone);
    ("roadmap_data", default_roadmap_frames);
    ("full_roadmap_for_export", PFrame (mkFrame None [] []));
    ("export_options",
     PDict [ (KStr "include_branding", PBool false); (KStr "include_glossary", PBool true);
             (KStr "include_raw_data", PBool false);
             (KStr "selected_sections", PList (map PStr TABS_keys)) ]);
    ("simulated_reports", PDict []) ].

(** [if key not in st.session_state or force_defaults: st.session_state[key] = copy(value)] *)
Fixpoint apply_defaults (force_defaults : bool) (ds : list (string * pyval))
    (st : session_state) : session_state :=
  match ds with
  | [] => st
  | (key, value) :: rest =>
      apply_defaults force_defaults rest
        (if negb (dict_mem String.eqb st key) || force_defaults
         then sset st key value else st)
  end.

(** [if key not in st.session_state or not isinstance(st.session_state[key], dict)
     or force_defaults: st.session_state[key] = value] *)
Definition ensure_dict (force_defaults : bool) (key : string) (value : pyval)
    (st : session_state) : session_state :=
  if match sget st key with
     | Some v => negb (is_dict v)
     | None => true
     end || force_defaults
  then sset st key value else st.

Definition init_session_state (clk : Clock) (force_defaults : bool)
    (st : session_state) : session_state :=
  if dict_mem String.eqb st "state_initialized" && negb force_defaults then st
  else
    let st := apply_defaults force_defaults (defaults clk) st in
    let st := ensure_dict force_defaults "interview_questions"
                default_interview_questions st in
    let st := ensure_dict force_defaults "maturity_evidence"
                (PDict (map (fun dim => (KStr dim, PStr "")) mock_maturity_dimensions)) st in
    let st := ensure_dict force_defaults "maturity_assessments_history" (PDict []) st in
    let st := ensure_dict force_defaults "dq_rules_config" default_dq_rules_config st in
    sset st "state_initialized" (PBool true).

(** The file [STATE_FILE] is [None] when it does not exist. *)
Definition load_app_state_json (clk : Clock) (file : option file_content)
    (st : session_state) : session_state * bool * list ui_msg :=
  match file with
  | Some content =>
      catch
        (loaded_state <- json_load content ;;
         items <- py_items loaded_state ;;
         let out := load_items items st in
         Ok (fst out, true, snd out))
        (fun e =>
           (init_session_state clk true st, false,
            [st_sidebar_error ("Error loading state file: " ++ exc_msg e)]))
  | None => (init_session_state clk true st, false, [])
  end.
End Serializer.

(** ** Vocabulary of the statements *)

(** The entries of a column, empty when the frame has no such column. *)
Definition column_of (df : DataFrame) (c : string) : list cell :=
  catch (df_getitem df c) (fun _ => []).

Definition dimension_names : list string :=
  ["Completeness"; "Uniqueness"; "Timeliness"; "Validity"; "Consistency"].

(** The two sentinels a dimension can report instead of a number. *)
Definition is_not_applicable (v : pyval) : Prop :=
  exists detail, v = PStr ("N/A" ++ detail).

Definition is_error (v : pyval) : Prop :=
  exists detail, v = PStr ("Error (" ++ detail ++ ")").

Definition is_percentage (v : pyval) : Prop :=
  exists q, v = PFloat q /\ (0 <= q)%Q /\ (q <= 100)%Q.

Definition dimension_result_ok (v : pyval) : Prop :=
  is_percentage v \/ is_not_applicable v \/ is_error v.

(** A column name of the rule configuration as the data model has it: a
    string, or nothing. *)
Definition column_name_ok (v : pyval) : bool :=
  match v with
  | PNone | PStr _ => true
  | _ => false
  end.

Definition is_str (v : pyval) : bool :=
  match v with PStr _ => true | _ => false end.

(** A rule configuration whose column fields have the types of the data
    model: a list of names for completeness, a name or nothing elsewhere. *)
Definition config_typed (config : pydict) : bool :=
  match py_get_default config "completeness_cols" (PList []) with
  | PList l => forallb is_str l
  | _ => false
  end
  && column_name_ok (py_get config "uniqueness_col")
  && column_name_ok (py_get config "timeliness_col")
  && column_name_ok (py_get config "validity_col")
  && column_name_ok (py_get config "consistency_col").

(** The column named by a field of the configuration is set and is a column
    of the frame. *)
Definition configured (df : DataFrame) (config : pydict) (field c : string) : Prop :=
  py_get config field = PStr c /\ String.eqb c "" = false /\ has_column df c = true.

(** The named field is unset, or names something that is not a column. *)
Definition not_present (df : DataFrame) (config : pydict) (field : string) : Prop :=
  py_get config field = PNone \/
  exists c, py_get config field = PStr c /\ has_column df c = false.

Definition is_negative (o : option Q) : bool :=
  match o with
  | Some q => negb (Qle_bool 0 q)
  | None => false
  end.

Definition is_some {A : Type} (o : option A) : bool :=
  match o with Some _ => true | None => false end.

(** The passing entries of the validity check, counted over all rows. *)
Definition passes_validity (o : option Q) : bool :=
  match o with
  | Some q => Qle_bool 0 q
  | None => false
  end.

(** The current time on the axis of a parsed date column: the wall clock of
    the application's zone for a naive column, the instant for an aware
    one. *)
Definition now_on_axis (L : Library) (clk : Clock) (column : list cell) : Z :=
  match datetime_tz L column with
  | None => (clock_utc clk + utcoffset L DEFAULT_TIMEZONE)%Z
  | Some _ => clock_utc clk
  end.

Definition cutoff (L : Library) (clk : Clock) (column : list cell) (days : Q) : Q :=
  (inject_Z (now_on_axis L clk column) - days * inject_Z NS_PER_DAY)%Q.

Definition is_timely (limit : Q) (o : option Z) : bool :=
  match o with
  | Some d => Qlt_bool limit (inject_Z d)
  | None => false
  end.

(** The trust score as the specification words it: the mean, rounded to one
    decimal, of the results that are not sentinels; 0 when there is none. *)
Definition is_sentinel (v : pyval) : bool :=
  match v with PStr _ => true | _ => false end.

Definition spec_trust_score (results : sdict) : pyval :=
  let numeric := filter (fun v => negb (is_sentinel v)) (map snd results) in
  match numeric with
  | [] => PInt 0
  | _ => PFloat (round1 (Qsum (map number_value numeric) / Qnat (List.length numeric)))
  end.

(** Both numbers, or both not. *)
Definition same_kind (a b : pyval) : bool :=
  Bool.eqb (is_number a) (is_number b).

(** ** Vocabulary of the serializer statements *)

Fixpoint distinct_strings (l : list string) : bool :=
  match l with
  | [] => true
  | x :: rest => negb (existsb (String.eqb x) rest) && distinct_strings rest
  end.

Definition is_str_key (k : pykey) : bool :=
  match k with KStr _ => true | _ => false end.

(** A value JSON holds as it is: scalars, lists, and mappings with distinct
    string keys, nested at will. *)
Fixpoint json_safe (v : pyval) : bool :=
  match v with
  | PNone | PBool _ | PInt _ | PFloat _ | PStr _ => true
  | PList l => forallb json_safe l
  | PDict d =>
      forallb (fun kv => is_str_key (fst kv) && json_safe (snd kv)) d
      && distinct_strings (map (fun kv => key_name (fst kv)) d)
  | _ => false
  end.

(** What a value becomes when it is written and read back. *)
Definition json_round_trip (v : pyval) : res pyval :=
  j <- json_encode v ;; Ok (json_decode j).

(** The keys of a dictionary are pairwise different for [==]. *)
Fixpoint distinct_keys (l : list pykey) : bool :=
  match l with
  | [] => true
  | x :: rest => negb (existsb (key_eqb x) rest) && distinct_keys rest
  end.

Definition is_time_key (k : pykey) : bool :=
  match k with KTime _ => true | _ => false end.

Definition is_frame (v : pyval) : bool :=
  match v with PFrame _ => true | _ => false end.

(** The default rule configuration after a round trip through JSON: the
    range is a list. *)
Definition reloaded_dq_rules_config : pydict :=
  [ (KStr "completeness_cols",
     PList [PStr "CustomerID"; PStr "TransactionAmount"; PStr "SatisfactionScore"]);
    (KStr "uniqueness_col", PStr "CustomerID");
    (KStr "timeliness_col", PStr "PurchaseDate");
    (KStr "timeliness_days", PInt 90);
    (KStr "validity_col", PStr "TransactionAmount");
    (KStr "validity_condition", PStr ">= 0");
    (KStr "consistency_col", PStr "SatisfactionScore");
    (KStr "consistency_range", PList [PInt 1; PInt 5]) ].

(** The value [load_app_state_json] stores for a key of the document, or
    [None] when it leaves the key as it was. *)
Definition loaded_value (L : Library) (key : string) (value : pyval) : option pyval :=
  sget (fst (load_key L key value [])) key.

(** [[f x for x in l]] where [f] can raise *)
Fixpoint mapM {A B : Type} (f : A -> res B) (l : list A) : res (list B) :=
  match l with
  | [] => Ok []
  | x :: rest =>
      x' <- f x ;;
      rest' <- mapM f rest ;;
      Ok (x' :: rest')
  end.

(** The text of a key in a JSON document. *)
Definition json_key (k : pykey) : res string :=
  match k with
  | KStr s => Ok s
  | KInt z => Ok (str_of_Z z)
  | KTime _ => Raise (Exc TypeError "keys must be str, int, float, bool or None, not Timestamp")
  end.

Definition encode_member (kv : pykey * pyval) : res (string * json) :=
  k' <- json_key (fst kv) ;;
  x' <- json_encode (snd kv) ;;
  Ok (k', x').

(** The keys and types [load_app_state_json] and [save_app_state_json]
    treat apart: text under a [_df_json] key, mappings under the roadmap
    and history keys. *)
Definition handled_specially (key : string) (v : pyval) : bool :=
  match v with
  | PStr _ => String.eqb key "raci_df_json" || ends_with "_df_json" key
  | PDict _ =>
      String.eqb key "roadmap_data" || String.eqb key "maturity_assessments_history"
  | _ => false
  end.

(** Values [save_app_state_json] leaves out when they sit directly under a
    key. *)
Definition omitted (v : pyval) : bool :=
  match v with
  | PTuple _ | PBytes _ | PTime _ => true
  | _ => false
  end.

(** The values the round trip is designed for, key by key. *)
Inductive supported (L : Library) : string -> pyval -> Prop :=
| supported_plain (key : string) (v : pyval) :
    json_safe v = true -> handled_specially key v = false ->
    supported L key v
| supported_raci (df flat : DataFrame) :
    df_index_name df = Some "Activity" ->
    reset_index df = Ok flat ->
    read_json_split L (to_json_split L flat) = Ok flat ->
    supported L "raci_df_json" (PFrame df)
| supported_history (h : pydict) :
    forallb is_time_key (map fst h) = true ->
    distinct_keys (map fst h) = true ->
    forallb json_safe (map snd h) = true ->
    (forall t, In (KTime t) (map fst h) ->
               timestamp_of_string L (isoformat L t) = Ok t) ->
    supported L "maturity_assessments_history" (PDict h)
| supported_roadmap (d : pydict) :
    forallb is_str_key (map fst d) = true ->
    distinct_strings (map (fun kv => key_name (fst kv)) d) = true ->
    (forall cat v, In (cat, v) d ->
       exists df, v = PFrame df /\
                  json_safe (to_dict_records L df) = true /\
                  frame_of_records L (to_dict_records L df) = Ok df) ->
    supported L "roadmap_data" (PDict d)
| supported_omitted (key : string) (v : pyval) :
    omitted v = true -> supported L key v.

(** What the round trip leaves under a key that held [v]: [v] itself, or
    what the target state held when [v] is left out. *)
Definition expected_after (v : pyval) (before : option pyval) : option pyval :=
  if omitted v then before else Some v.

(** An entry whose value [json.dump] can write. *)
Definition encodes (kv : string * pyval) : Prop :=
  exists j, json_encode (snd kv) = Ok j.

Definition is_object (j : json) : bool :=
  match j with JObj _ => true | _ => false end.

(** *** The round-trip invariant as the specification words it

    A representable value is tabular data, or scalars, lists and mappings
    nested at will over representable leaves (a history keyed by timestamps
    is such a mapping).  Every persisted key holding a representable value
    holds an equal value after save then load; every other persisted key is
    absent from the round trip, so the load leaves it as it was. *)
Fixpoint plain_nested (v : pyval) : bool :=
  match v with
  | PNone | PBool _ | PInt _ | PFloat _ | PStr _ => true
  | PList l => forallb plain_nested l
  | PDict d => forallb (fun kv => plain_nested (snd kv)) d
  | _ => false
  end.

Definition representable_as_claimed (v : pyval) : bool :=
  plain_nested v || is_frame v.

Definition round_trip_claim (L : Library) (clk : Clock) (st st0 : session_state) : Prop :=
  exists file ok msgs,
    save_app_state_json L st = Ok (file, ok, msgs) /\
    forall k v, In k keys_to_persist -> sget st k = Some v ->
      sget (fst (fst (load_app_state_json L clk (Some file) st0))) k
      = if representable_as_claimed v then Some v else sget st0 k.

(** The history as it is stored: every timestamp replaced by its text. *)
Definition history_texts (L : Library) (d : pydict) : list (string * pyval) :=
  map (fun kv => (history_key L (fst kv), snd kv)) d.

(** The records stored for a table of the roadmap. *)
Definition records_of (L : Library) (v : pyval) : pyval :=
  match v with PFrame df => to_dict_records L df | _ => PNone end.

(** ** Induction on nested values *)

Section PyvalInduction.
Variable P : pyval -> Prop.
Hypothesis HNone : P PNone.
Hypothesis HBool : forall b, P (PBool b).
Hypothesis HInt : forall z, P (PInt z).
Hypothesis HFloat : forall q, P (PFloat q).
Hypothesis HStr : forall s, P (PStr s).
Hypothesis HBytes : forall b, P (PBytes b).
Hypothesis HList : forall l, Forall P l -> P (PList l).
Hypothesis HTuple : forall l, Forall P l -> P (PTuple l).
Hypothesis HDict : forall d, Forall (fun kv => P (snd kv)) d -> P (PDict d).
Hypothesis HTime : forall t, P (PTime t).
Hypothesis HFrame : forall f, P (PFrame f).

Fixpoint pyval_nested_ind (v : pyval) : P v :=
  match v with
  | PNone => HNone
  | PBool b => HBool b
  | PInt z => HInt z
  | PFloat q => HFloat q
  | PStr s => HStr s
  | PBytes b => HBytes b
  | PList l =>
      HList l ((fix go (l : list pyval) : Forall P l :=
                  match l with
                  | [] => Forall_nil P
                  | x :: rest => Forall_cons x (pyval_nested_ind x) (go rest)
                  end) l)
  | PTuple l =>
      HTuple l ((fix go (l : list pyval) : Forall P l :=
                   match l with
                   | [] => Forall_nil P
                   | x :: rest => Forall_cons x (pyval_nested_ind x) (go rest)
                   end) l)
  | PDict d =>
      HDict d ((fix go (d : list (pykey * pyval)) : Forall (fun kv => P (snd kv)) d :=
                  match d with
                  | [] => Forall_nil _
                  | kv :: rest =>
                      Forall_cons kv (pyval_nested_ind (snd kv)) (go rest)
                  end) d)
  | PTime t => HTime t
  | PFrame f => HFrame f
  end.
End PyvalInduction.


(** ** A library double and sample data

    The examples below run the code on concrete tables.  They use a double
    of the library: numbers and timestamps held in cells are taken as they
    are, text is never coercible, and the JSON text of a frame is a fixed
    token that reads back as one known frame. *)

Module Sample.

Definition numeric_of_cell (c : cell) : option Q :=
  match c with
  | CInt z => Some (inject_Z z)
  | CFloat q => Some q
  | _ => None
  end.

Definition datetime_of_cell (c : cell) : option Z :=
  match c with
  | CTime t => Some (ts_instant t)
  | _ => None
  end.

Fixpoint zone_of_column (l : list cell) : option Z :=
  match l with
  | [] => None
  | CTime t :: _ => ts_tz t
  | _ :: rest => zone_of_column rest
  end.

Definition text_of (v : pyval) : string :=
  match v with
  | PNone => "None"
  | PBool true => "True"
  | PBool false => "False"
  | PInt z => str_of_Z z
  | PStr s => s
  | _ => "<object>"
  end.

Definition py_of_cell (c : cell) : pyval :=
  match c with
  | CNa => PNone
  | CInt z => PInt z
  | CFloat q => PFloat q
  | CStr s => PStr s
  | CTime t => PTime t
  end.

Definition cell_of_py (v : pyval) : cell :=
  match v with
  | PInt z => CInt z
  | PFloat q => CFloat q
  | PStr s => CStr s
  | PTime t => CTime t
  | _ => CNa
  end.

Definition records_of_frame (df : DataFrame) : pyval :=
  PList (map (fun r => PDict (combine (map KStr (df_columns df)) (map py_of_cell (snd r))))
             (df_rows df)).

Definition record_labels (v : pyval) : list string :=
  match v with
  | PDict d => map (fun kv => key_name (fst kv)) d
  | _ => []
  end.

Definition record_cells (v : pyval) : list cell :=
  match v with
  | PDict d => map (fun kv => cell_of_py (snd kv)) d
  | _ => []
  end.

Definition frame_of_record_list (v : pyval) : res DataFrame :=
  match v with
  | PList items =>
      Ok (mkFrame None
            (match items with [] => [] | r :: _ => record_labels r end)
            (combine (range_index (List.length items)) (map record_cells items)))
  | _ => Raise (Exc ValueError "DataFrame constructor not properly called!")
  end.

Definition timestamp_of_text (s : string) : res Timestamp :=
  match NilZero.int_of_string s with
  | Some i => Ok (mkTs (Z.of_int i) None)
  | None => Raise (Exc ValueError "could not convert string to Timestamp")
  end.

Definition frame_token : string := "{split}".

Definition library (known : DataFrame) : Library :=
  {| to_numeric := numeric_of_cell;
     to_datetime := datetime_of_cell;
     datetime_tz := zone_of_column;
     utcoffset := fun _ => 0%Z;
     py_str := text_of;
     to_json_split := fun _ => frame_token;
     read_json_split := fun s =>
       if String.eqb s frame_token then Ok known
       else Raise (Exc ValueError "Expected object or value");
     to_dict_records := records_of_frame;
     frame_of_records := frame_of_record_list;
     isoformat := fun t => str_of_Z (ts_wall t);
     timestamp_of_string := timestamp_of_text;
     strftime := fun t fmt => str_of_Z (ts_wall t) |}.

Definition no_frame : DataFrame := mkFrame None [] [].

(** Day [d] at midnight, naive. *)
Definition day (d : Z) : Timestamp := mkTs (d * NS_PER_DAY) None.

(** It is day 1000. *)
Definition clock : Clock := {| clock_utc := 1000 * NS_PER_DAY; clock_local_offset := 0 |}.

Definition config_of (v : pyval) : pydict :=
  match v with PDict d => d | _ => [] end.

Definition default_config : pydict := config_of default_dq_rules_config.

(** A table with every column of the default rules: a repeated customer,
    a missing one, an unparseable and an old date, a negative amount, a
    score out of range. *)
Definition customers : DataFrame :=
  mkFrame None
    ["CustomerID"; "PurchaseDate"; "TransactionAmount"; "SatisfactionScore"]
    [ (CInt 0, [CStr "C1"; CTime (day 990); CInt 120; CInt 4]);
      (CInt 1, [CStr "C2"; CTime (day 900); CInt (-5); CInt 5]);
      (CInt 2, [CStr "C1"; CStr "yesterday"; CFloat (5 # 2); CInt 9]);
      (CInt 3, [CNa; CTime (day 999); CStr "n/a"; CNa]) ].

(** A table that has only the amounts. *)
Definition amounts_only : DataFrame :=
  mkFrame None ["TransactionAmount"] [ (CInt 0, [CInt 10]); (CInt 1, [CInt 20]) ].

(** 100 numeric amounts, the first five negative. *)
Definition hundred_amounts : DataFrame :=
  mkFrame None ["TransactionAmount"]
    (map (fun i => (CInt (Z.of_nat i),
                    [CInt (if (i <? 5)%nat then -1 else Z.of_nat i)]))
         (seq 0 100)).

Definition validity_only : pydict :=
  [ (KStr "validity_col", PStr "TransactionAmount");
    (KStr "validity_condition", PStr ">= 0") ].

(** The default rules with a freshness window that is not a number. *)
Definition bad_window_config : pydict :=
  dict_set key_eqb default_config (KStr "timeliness_days") (PStr "ninety").

(** The default rules with no list of columns for completeness. *)
Definition null_columns_config : pydict :=
  dict_set key_eqb default_config (KStr "completeness_cols") PNone.

(** The default RACI table as it is written: the index is a column. *)
Definition raci_flat : DataFrame :=
  match reset_index default_raci_frame with
  | Ok flat => flat
  | Raise _ => no_frame
  end.

(** A state with one value of each supported kind. *)
Definition session : session_state :=
  [ ("project_metadata",
     PDict [ (KStr "Project Name", PStr "Enterprise Data Strategy Initiative");
             (KStr "tags", PList [PInt 1; PNone; PBool true; PFloat (5 # 2)]) ]);
    ("uploaded_logo_bytes", PBytes "PNG");
    ("raci_df_json", PFrame default_raci_frame);
    ("maturity_assessments_history",
     PDict [ (KTime (day 10),
              PDict [ (KStr "scores", PDict [(KStr "Data Quality", PInt 2)]);
                      (KStr "evidence", PDict []) ]);
             (KTime (day 20),
              PDict [ (KStr "scores", PDict [(KStr "Data Quality", PInt 3)]);
                      (KStr "evidence", PDict []) ]) ]);
    ("roadmap_data", default_roadmap_frames);
    ("current_tab", PStr "not persisted") ].

(** Confidence scores keyed by the number of the question. *)
Definition numbered_answers : session_state :=
  [ ("interview_confidence",
     PDict [ (KStr "Data Scientist", PDict [ (KInt 0, PInt 5); (KInt 1, PInt 3) ]) ]) ].

(** The rule configuration the application starts with. *)
Definition initial_rules : session_state :=
  [ ("dq_rules_config", default_dq_rules_config) ].

(** A RACI table, flat as in the file, whose Activity column has the same
    activity twice. *)
Definition duplicated_raci : DataFrame :=
  mkFrame None ["Activity"; "CDO"; "IT Security"]
    [ (CInt 0, [CStr "Define Data Quality Rules"; CStr "A"; CStr "I"]);
      (CInt 1, [CStr "Define Data Quality Rules"; CStr "R"; CStr "C"]) ].

(** A state file that holds only the RACI table. *)
Definition raci_file : file_content :=
  Doc (JObj [ ("raci_df_json", JStr frame_token) ]).

End Sample.

(** * Properties *)

(** ** Reading a successful bind *)

Lemma bind_ok {A B : Type} (m : res A) (k : A -> res B) (b : B) :
  bind m k = Ok b -> exists a, m = Ok a /\ k a = Ok b.
Proof.
  destruct m as [a | e]; simpl; intros H; [eauto | discriminate].
Qed.

Ltac inv_bind H :=
  let a := fresh "a" in
  let Ha := fresh "Ha" in
  apply bind_ok in H; destruct H as (a & Ha & H).

(** ** Rounding and percentages *)
Lemma round_half_even_bounds (q : Q) (lo hi : Z) :
  (inject_Z lo <= q)%Q -> (q <= inject_Z hi)%Q ->
  (lo <= round_half_even q <= hi)%Z.
Proof.
  intros Hlo Hhi.
  assert (Hf1 : (lo <= Qfloor q)%Z).
  { rewrite <- (Qfloor_Z lo). now apply Qfloor_resp_le. }
  assert (Hf2 : (Qfloor q <= hi)%Z).
  { rewrite <- (Qfloor_Z hi). now apply Qfloor_resp_le. }
  assert (Hup : ((q - inject_Z (Qfloor q) ?= 1 # 2)%Q <> Lt -> Qfloor q + 1 <= hi)%Z).
  { intros Hc.
    destruct (Z.eq_dec (Qfloor q) hi) as [E | NE]; [| lia].
    exfalso. apply Hc. rewrite <- Qlt_alt. rewrite E. lra. }
  unfold round_half_even.
  destruct (q - inject_Z (Qfloor q) ?= 1 # 2)%Q eqn:C.
  - destruct (Z.even (Qfloor q)); [lia |].
    assert (Qfloor q + 1 <= hi)%Z by (apply Hup; discriminate). lia.
  - lia.
  - assert (Qfloor q + 1 <= hi)%Z by (apply Hup; discriminate). lia.
Qed.

Lemma round1_bounds (q : Q) :
  (0 <= q)%Q -> (q <= 100)%Q -> (0 <= round1 q)%Q /\ (round1 q <= 100)%Q.
Proof.
  intros H0 H100.
  destruct (round_half_even_bounds (q * 10) 0 1000) as [A B].
  - change (inject_Z 0) with 0%Q. lra.
  - change (inject_Z 1000) with 1000%Q. lra.
  - unfold round1, Qle; simpl. split; lia.
Qed.

Lemma Qnat_nonneg (n : nat) : (0 <= Qnat n)%Q.
Proof. unfold Qnat, Qle; simpl. lia. Qed.

Lemma Qnat_le (a b : nat) : (a <= b)%nat -> (Qnat a <= Qnat b)%Q.
Proof. intros H. unfold Qnat, Qle; simpl. lia. Qed.

Lemma Qnat_pos (n : nat) : (0 < n)%nat -> (0 < Qnat n)%Q.
Proof. intros H. unfold Qnat, Qlt; simpl. lia. Qed.

Lemma calculate_percentage_bounds (n d : Q) :
  (0 <= n)%Q -> (n <= d)%Q ->
  (0 <= calculate_percentage n d)%Q /\ (calculate_percentage n d <= 100)%Q.
Proof.
  intros Hn Hd. unfold calculate_percentage.
  destruct (Qeq_bool d 0) eqn:E.
  - split; lra.
  - assert (Hd0 : ~ (d == 0)%Q) by (now apply Qeq_bool_neq).
    assert (Hpos : (0 < d)%Q) by lra.
    apply round1_bounds.
    + apply Qmult_le_0_compat; [| lra].
      apply Qle_shift_div_l; [exact Hpos | lra].
    + assert (n / d <= 1)%Q by (apply Qle_shift_div_r; [exact Hpos | lra]).
      lra.
Qed.

(** ** Results and binds *)

(** ** Counting in columns *)

Lemma count_le_length {A : Type} (p : A -> bool) (l : list A) :
  (count p l <= List.length l)%nat.
Proof. unfold count. apply filter_length_le. Qed.

Lemma dropna_length_le {A : Type} (l : list (option A)) :
  (List.length (dropna l) <= List.length l)%nat.
Proof.
  induction l as [| [a |] l IH]; simpl; lia.
Qed.

Lemma distinct_length_le (l : list cell) :
  (List.length (distinct l) <= List.length l)%nat.
Proof.
  induction l as [| x l IH]; simpl; [lia |].
  destruct (existsb (cell_eqb x) l); simpl; lia.
Qed.

Lemma nunique_le (l : list cell) : (nunique l <= List.length l)%nat.
Proof.
  unfold nunique.
  pose proof (distinct_length_le (filter notnull l)).
  pose proof (filter_length_le notnull l). lia.
Qed.

Lemma column_at_length (df : DataFrame) (i : nat) :
  List.length (column_at df i) = len_df df.
Proof. unfold column_at, len_df. apply length_map. Qed.

Lemma getitem_length (df : DataFrame) (c : pyval) (cells : list cell) :
  getitem df c = Ok cells -> List.length cells = len_df df.
Proof.
  destruct c; simpl; try discriminate.
  unfold df_getitem. destruct (index_of s (df_columns df)); [| discriminate].
  intros H; inversion H; subst. apply column_at_length.
Qed.

Lemma count_nulls_le (df : DataFrame) (cols : list pyval) (n : nat) :
  count_nulls df cols = Ok n -> (n <= List.length cols * len_df df)%nat.
Proof.
  revert n. induction cols as [| c cols IH]; simpl; intros n H.
  - inversion H; lia.
  - inv_bind H. inv_bind H. inversion H; subst.
    apply getitem_length in Ha.
    pose proof (count_le_length isnull a).
    specialize (IH _ Ha0). lia.
Qed.

Lemma count_after_le (tz : option Z) (dates : list Z) (ltz : option Z) (limit : Q) (n : nat) :
  count_after tz dates ltz limit = Ok n -> (n <= List.length dates)%nat.
Proof.
  unfold count_after. destruct (same_awareness tz ltz); [| discriminate].
  intros H; inversion H; subst. apply count_le_length.
Qed.

(** A column that is there: [index_of] finds what [has_column] sees. *)
Lemma has_column_index_of (df : DataFrame) (c : string) :
  has_column df c = true -> exists i, index_of c (df_columns df) = Some i.
Proof.
  unfold has_column. induction (df_columns df) as [| x cols IH]; simpl.
  - discriminate.
  - destruct (String.eqb c x); [eauto |].
    simpl. intros H. destruct (IH H) as [i Hi]. rewrite Hi. eauto.
Qed.

Lemma getitem_column_of (df : DataFrame) (c : string) :
  has_column df c = true -> getitem df (PStr c) = Ok (column_of df c).
Proof.
  intros H. destruct (has_column_index_of _ _ H) as [i Hi].
  unfold column_of, getitem, df_getitem. rewrite Hi. reflexivity.
Qed.

Lemma column_of_length (df : DataFrame) (c : string) :
  has_column df c = true -> List.length (column_of df c) = len_df df.
Proof.
  intros H. apply (getitem_length df (PStr c)). now apply getitem_column_of.
Qed.

Lemma df_nonempty_rows (df : DataFrame) :
  df_empty df = false -> (0 < len_df df)%nat.
Proof.
  unfold df_empty, len_df.
  destruct (df_columns df); [discriminate |].
  destruct (df_rows df); [discriminate |]. simpl; lia.
Qed.

(** ** The guard of a dimension *)

Lemma py_and_in_configured (df : DataFrame) (c : string) :
  String.eqb c "" = false -> has_column df c = true -> py_and_in df (PStr c) = Ok true.
Proof.
  intros Hc Hin. unfold py_and_in; simpl. rewrite Hc.
  simpl. unfold in_columns; simpl. now rewrite Hin.
Qed.

Lemma py_and_in_not_present (df : DataFrame) (config : pydict) (field : string) :
  not_present df config field -> py_and_in df (py_get config field) = Ok false.
Proof.
  intros [-> | (c & -> & Hc)]; [reflexivity |].
  unfold py_and_in; simpl. destruct (String.eqb c ""); simpl; [reflexivity |].
  unfold in_columns; simpl. now rewrite Hc.
Qed.

Lemma py_and_in_true (df : DataFrame) (v : pyval) :
  py_and_in df v = Ok true -> exists c, v = PStr c /\ has_column df c = true.
Proof.
  unfold py_and_in. intros H. inv_bind H.
  destruct a; [| discriminate].
  unfold in_columns in H. destruct (py_hashable v); [| discriminate].
  destruct v; inversion H; eauto.
Qed.

Lemma py_and_in_typed (df : DataFrame) (v : pyval) :
  column_name_ok v = true -> exists b, py_and_in df v = Ok b.
Proof.
  destruct v; simpl; try discriminate; intros _; unfold py_and_in; simpl.
  - eauto.
  - destruct (String.eqb s ""); simpl; [eauto |].
    unfold in_columns; simpl; eauto.
Qed.

(** ** Every dimension reports a percentage or a sentinel *)

Lemma percentage_ok (n d : nat) :
  (n <= d)%nat -> dimension_result_ok (PFloat (calculate_percentage (Qnat n) (Qnat d))).
Proof.
  intros H. left. eexists; split; [reflexivity |].
  apply calculate_percentage_bounds; [apply Qnat_nonneg | now apply Qnat_le].
Qed.

Lemma error_string_ok (e : exc) : dimension_result_ok (error_string e).
Proof. right; right. now exists (exc_msg e). Qed.

Lemma completeness_present_ok (df : DataFrame) (present : list pyval) :
  dimension_result_ok
    (fst (catch
            (nan_cells <- count_nulls df present ;;
             Ok (PFloat (calculate_percentage
                           (Qnat (List.length present * len_df df) - Qnat nan_cells)
                           (Qnat (List.length present * len_df df))),
                 issue nan_cells))
            (fun e => (error_string e, None)))).
Proof.
  destruct (count_nulls df present) as [n | e] eqn:E; simpl.
  - apply count_nulls_le in E. left. eexists; split; [reflexivity |].
    pose proof (Qnat_le _ _ E). pose proof (Qnat_nonneg n).
    apply calculate_percentage_bounds; lra.
  - apply error_string_ok.
Qed.

Lemma completeness_check_ok (df : DataFrame) (config : pydict) (d : dimension) :
  completeness_check df config = Ok d -> dimension_result_ok (fst d).
Proof.
  unfold completeness_check. intros H. inv_bind H. inv_bind H.
  destruct a0 as [| p ps]; injection H as <-.
  - right; left. now exists " (Cols missing)".
  - apply (completeness_present_ok df (p :: ps)).
Qed.

Lemma uniqueness_check_ok (df : DataFrame) (config : pydict) (d : dimension) :
  uniqueness_check df config = Ok d -> dimension_result_ok (fst d).
Proof.
  unfold uniqueness_check. intros H. inv_bind H.
  destruct a.
  - inversion H; subst; clear H.
    destruct (getitem df (py_get config "uniqueness_col")) as [cells | e]; simpl.
    + destruct (0 <? List.length (filter notnull cells))%nat.
      * apply percentage_ok.
        pose proof (nunique_le (filter notnull cells)). lia.
      * left. exists 100%Q. split; [reflexivity | split; lra].
    + apply error_string_ok.
  - inversion H; subst; simpl. right; left. now exists " (Col missing)".
Qed.

Lemma timeliness_check_ok (L : Library) (clk : Clock) (df : DataFrame)
    (config : pydict) (d : dimension) :
  timeliness_check L clk df config = Ok d -> dimension_result_ok (fst d).
Proof.
  unfold timeliness_check. intros H. inv_bind H.
  destruct a.
  - inversion H; subst; clear H.
    destruct (getitem df (py_get config "timeliness_col")) as [cells | e] eqn:G; simpl;
      [| apply error_string_ok].
    destruct (dropna (map (to_datetime L) cells)) as [| v vs] eqn:D.
    + simpl. right; left. now exists " (No valid dates)".
    + destruct (now_compare L (datetime_tz L cells) (get_current_time L clk)) as [nc | e];
        simpl; [| apply error_string_ok].
      destruct (py_number (py_get_default config "timeliness_days" (PInt 90))) as [days | e];
        simpl; [| apply error_string_ok].
      match goal with
      | |- context [count_after ?a ?b ?c ?e] => destruct (count_after a b c e) as [n | e'] eqn:C
      end; simpl; [| apply error_string_ok].
      apply percentage_ok.
      apply count_after_le in C. apply getitem_length in G.
      pose proof (dropna_length_le (map (to_datetime L) cells)) as Hd.
      rewrite D, length_map in Hd. lia.
  - inversion H; subst; simpl. right; left.
    now exists (" (Col missing or invalid limit: "
                ++ py_str L (py_get_default config "timeliness_days" (PInt 90)) ++ ")").
Qed.

Lemma validity_check_ok (L : Library) (df : DataFrame) (config : pydict) (d : dimension) :
  validity_check L df config = Ok d -> dimension_result_ok (fst d).
Proof.
  unfold validity_check. intros H. inv_bind H.
  destruct a.
  - inversion H; subst; clear H.
    destruct (getitem df (py_get config "validity_col")) as [cells | e] eqn:G; simpl;
      [| apply error_string_ok].
    apply percentage_ok. apply getitem_length in G.
    pose proof (dropna_length_le (map (to_numeric L) cells)) as Hd.
    rewrite length_map in Hd.
    destruct (py_eq_str (py_get config "validity_condition") ">= 0").
    + pose proof (count_le_length (fun q => Qle_bool 0 q) (dropna (map (to_numeric L) cells))).
      lia.
    + lia.
  - inversion H; subst; simpl. right; left. now exists " (Col missing)".
Qed.

Lemma consistency_check_ok (L : Library) (df : DataFrame) (config : pydict) (d : dimension) :
  consistency_check L df config = Ok d -> dimension_result_ok (fst d).
Proof.
  unfold consistency_check. intros H. inv_bind H.
  assert (NA : dimension_result_ok (PStr "N/A (Col/Range missing)")).
  { right; left. now exists " (Col/Range missing)". }
  destruct a; [| inversion H; subst; exact NA].
  destruct (py_get_default config "consistency_range" (PTuple [PInt 1; PInt 5]));
    try (inversion H; subst; exact NA).
  destruct l as [| lo [| hi [| x l]]]; try (inversion H; subst; exact NA).
  inversion H; subst; clear H.
  destruct (getitem df (py_get config "consistency_col")) as [cells | e] eqn:G; simpl;
    [| apply error_string_ok].
  destruct (py_number lo) as [qlo | e]; simpl; [| apply error_string_ok].
  destruct (py_number hi) as [qhi | e]; simpl; [| apply error_string_ok].
  apply percentage_ok. apply getitem_length in G.
  pose proof (count_le_length (in_range_or_na qlo qhi) (map (to_numeric L) cells)) as Hc.
  rewrite length_map in Hc. lia.
Qed.

(** ** The shape of the results *)

Lemma run_mock_dama_checks_inv (L : Library) (clk : Clock) (df : DataFrame)
    (config : pydict) (results : sdict) (issues : list (string * nat)) :
  df_empty df = false ->
  run_mock_dama_checks L clk (Some df) config = Ok (results, issues) ->
  exists c u t v k,
    completeness_check df config = Ok c /\
    uniqueness_check df config = Ok u /\
    timeliness_check L clk df config = Ok t /\
    validity_check L df config = Ok v /\
    consistency_check L df config = Ok k /\
    results = [("Completeness", fst c); ("Uniqueness", fst u); ("Timeliness", fst t);
               ("Validity", fst v); ("Consistency", fst k)].
Proof.
  intros Hne H. unfold run_mock_dama_checks in H. rewrite Hne in H.
  inv_bind H. inv_bind H. inv_bind H. inv_bind H. inv_bind H.
  inversion H; subst; clear H.
  exists a, a0, a1, a2, a3. repeat (split; [assumption |]). reflexivity.
Qed.

Lemma run_mock_dama_checks_typed (L : Library) (clk : Clock) (df : DataFrame)
    (config : pydict) :
  df_empty df = false -> config_typed config = true ->
  exists out, run_mock_dama_checks L clk (Some df) config = Ok out.
Proof.
  intros Hne Ht. unfold config_typed in Ht.
  repeat (apply andb_prop in Ht; destruct Ht as [Ht ?]).
  unfold run_mock_dama_checks. rewrite Hne.
  assert (C : exists c, completeness_check df config = Ok c).
  { unfold completeness_check.
    destruct (py_get_default config "completeness_cols" (PList [])); try discriminate.
    simpl.
    assert (F : exists p, filterM (in_columns df) l = Ok p).
    { clear -Ht. induction l as [| x l IH]; simpl; [eauto |].
      simpl in Ht. apply andb_prop in Ht. destruct Ht as [Hx Hl].
      destruct x; try discriminate. unfold in_columns at 1; simpl.
      destruct (IH Hl) as [p ->]. simpl. eauto. }
    destruct F as [p ->]. simpl. destruct p; eauto. }
  destruct C as [c ->]. simpl.
  assert (U : exists u, uniqueness_check df config = Ok u).
  { unfold uniqueness_check.
    destruct (py_and_in_typed df (py_get config "uniqueness_col")) as [b ->]; [assumption |].
    simpl. destruct b; eauto. }
  destruct U as [u ->]. simpl.
  assert (T : exists t, timeliness_check L clk df config = Ok t).
  { unfold timeliness_check.
    destruct (py_and_in_typed df (py_get config "timeliness_col")) as [b ->]; [assumption |].
    simpl. destruct b; eauto. }
  destruct T as [t ->]. simpl.
  assert (V : exists v, validity_check L df config = Ok v).
  { unfold validity_check.
    destruct (py_and_in_typed df (py_get config "validity_col")) as [b ->]; [assumption |].
    simpl. destruct b; eauto. }
  destruct V as [v ->]. simpl.
  assert (K : exists k, consistency_check L df config = Ok k).
  { unfold consistency_check.
    destruct (py_and_in_typed df (py_get config "consistency_col")) as [b ->]; [assumption |].
    simpl. destruct b; [| eauto].
    destruct (py_get_default config "consistency_range" (PTuple [PInt 1; PInt 5])); eauto.
    destruct l as [| lo [| hi [| x l]]]; eauto. }
  destruct K as [k ->]. simpl. eauto.
Qed.

(** ** What [run_mock_dama_checks] returns *)

Lemma run_mock_dama_checks_cases (L : Library) (clk : Clock) (df : DataFrame)
    (config : pydict) :
  df_empty df = false ->
  match run_mock_dama_checks L clk (Some df) config with
  | Ok (results, _) =>
      exists c u t v k,
        completeness_check df config = Ok c /\
        uniqueness_check df config = Ok u /\
        timeliness_check L clk df config = Ok t /\
        validity_check L df config = Ok v /\
        consistency_check L df config = Ok k /\
        results = [("Completeness", fst c); ("Uniqueness", fst u); ("Timeliness", fst t);
                   ("Validity", fst v); ("Consistency", fst k)]
  | Raise _ => config_typed config = false
  end.
Proof.
  intros Hne.
  destruct (run_mock_dama_checks L clk (Some df) config) as [[results issues] | e] eqn:R.
  - now apply (run_mock_dama_checks_inv L clk df config results issues).
  - destruct (config_typed config) eqn:T; [| reflexivity].
    destruct (run_mock_dama_checks_typed L clk df config Hne T) as [out Hout].
    congruence.
Qed.

Lemma calculate_percentage_rows (n : Q) (d : nat) :
  (0 < d)%nat ->
  calculate_percentage n (Qnat d) = round1 (n / Qnat d * 100).
Proof.
  intros H. unfold calculate_percentage.
  destruct (Qeq_bool (Qnat d) 0) eqn:E; [| reflexivity].
  apply Qeq_bool_eq in E. pose proof (Qnat_pos d H). lra.
Qed.

Lemma count_dropna {A : Type} (p : A -> bool) (l : list (option A)) :
  count p (dropna l)
  = count (fun o => match o with Some a => p a | None => false end) l.
Proof.
  unfold count. induction l as [| [a |] l IH]; simpl; [reflexivity | |].
  - destruct (p a); simpl; now rewrite IH.
  - exact IH.
Qed.

Lemma filter_notnull_idem (l : list cell) :
  filter notnull (filter notnull l) = filter notnull l.
Proof.
  induction l as [| x l IH]; simpl; [reflexivity |].
  destruct (notnull x) eqn:E; simpl; [rewrite E, IH |]; auto.
Qed.

Lemma run_mock_dama_checks_results_ok (L : Library) (clk : Clock) (df : DataFrame)
    (config : pydict) (results : sdict) (issues : list (string * nat)) :
  df_empty df = false ->
  run_mock_dama_checks L clk (Some df) config = Ok (results, issues) ->
  map fst results = dimension_names /\
  Forall dimension_result_ok (map snd results).
Proof.
  intros Hne R.
  destruct (run_mock_dama_checks_inv L clk df config results issues Hne R)
    as (c & u & t & v & k & Hc & Hu & Ht & Hv & Hk & ->).
  split; [reflexivity |]. simpl.
  apply Forall_cons; [now apply (completeness_check_ok df config) |].
  apply Forall_cons; [now apply (uniqueness_check_ok df config) |].
  apply Forall_cons; [now apply (timeliness_check_ok L clk df config) |].
  apply Forall_cons; [now apply (validity_check_ok L df config) |].
  apply Forall_cons; [now apply (consistency_check_ok L df config) |].
  apply Forall_nil.
Qed.

(** C4.  For a non-empty dataset and any rule configuration, the scorer
    either returns exactly the five dimensions, each holding a number in
    [0, 100] or one of the two sentinels ("N/A ...", "Error (...)"), or it
    raises, which only a configuration whose column fields are not names
    can cause. *)
Theorem dimension_results_in_range (L : Library) (clk : Clock) (df : DataFrame)
    (config : pydict) :
  df_empty df = false ->
  match run_mock_dama_checks L clk (Some df) config with
  | Ok (results, _) =>
      map fst results = dimension_names /\
      Forall dimension_result_ok (map snd results)
  | Raise _ => config_typed config = false
  end.
Proof.
  intros Hne.
  destruct (run_mock_dama_checks L clk (Some df) config) as [[results issues] | e] eqn:R.
  - now apply (run_mock_dama_checks_results_ok L clk df config results issues).
  - destruct (config_typed config) eqn:T; [| reflexivity].
    destruct (run_mock_dama_checks_typed L clk df config Hne T) as [out Hout].
    congruence.
Qed.

Lemma dimension_results_in_range_witness :
  df_empty Sample.customers = false /\
  match run_mock_dama_checks (Sample.library Sample.no_frame) Sample.clock
          (Some Sample.customers) Sample.default_config with
  | Ok (results, _) =>
      map fst results = dimension_names /\
      Forall dimension_result_ok (map snd results)
  | Raise _ => config_typed Sample.default_config = false
  end.
Proof.
  split; [reflexivity |].
  apply (dimension_results_in_range (Sample.library Sample.no_frame) Sample.clock
           Sample.customers Sample.default_config).
  reflexivity.
Defined.

(** ** Validity *)

Lemma count_partition (entries : list (option Q)) :
  (count passes_validity entries + count is_negative entries
   + count (fun o => negb (is_some o)) entries = List.length entries)%nat.
Proof.
  unfold count. induction entries as [| [q |] l IH]; simpl; [reflexivity | |].
  - destruct (Qle_bool 0 q); simpl; lia.
  - lia.
Qed.

(** C5.  On a non-empty dataset that has the configured validity column,
    with the condition [>= 0], the validity result is
    100 x (entries that coerce to a number >= 0) / (number of rows), rounded
    to one decimal: the rows that do not coerce count in the denominator
    only.  With 100 rows that all coerce, 5 of them negative, it is 95.0. *)
Theorem validity_score_formula (L : Library) (clk : Clock) (df : DataFrame)
    (config : pydict) (c : string) :
  df_empty df = false ->
  configured df config "validity_col" c ->
  py_get config "validity_condition" = PStr ">= 0" ->
  let entries := map (to_numeric L) (column_of df c) in
  let score := round1 (Qnat (count passes_validity entries) / Qnat (len_df df) * 100) in
  (exists failures, validity_check L df config = Ok (PFloat score, failures)) /\
  match run_mock_dama_checks L clk (Some df) config with
  | Ok (results, _) => sget results "Validity" = Some (PFloat score)
  | Raise _ => config_typed config = false
  end /\
  (len_df df = 100%nat ->
   count is_some entries = 100%nat ->
   count is_negative entries = 5%nat ->
   (score == 95)%Q).
Proof.
  intros Hne (Hcol & Hc & Hin) Hcond entries score.
  assert (V : validity_check L df config
              = Ok (PFloat score,
                    issue (List.length (dropna entries) - count passes_validity entries))).
  { unfold validity_check. rewrite Hcol, (py_and_in_configured df c Hc Hin).
    cbn [bind]. rewrite (getitem_column_of df c Hin). cbn [bind catch].
    rewrite Hcond. cbn [py_eq_str]. rewrite String.eqb_refl.
    rewrite (calculate_percentage_rows _ _ (df_nonempty_rows df Hne)).
    fold entries. rewrite (count_dropna (fun q => Qle_bool 0 q) entries).
    reflexivity. }
  split; [eauto |]. split.
  - pose proof (run_mock_dama_checks_cases L clk df config Hne) as H.
    destruct (run_mock_dama_checks L clk (Some df) config) as [[results issues] | e];
      [| exact H].
    destruct H as (c0 & u & t & v & k & _ & _ & _ & Hv & _ & ->).
    rewrite V in Hv. injection Hv as <-. reflexivity.
  - intros Hrows Hsome Hneg.
    pose proof (count_partition entries) as P.
    assert (Hlen : List.length entries = 100%nat).
    { unfold entries. rewrite length_map, (column_of_length df c Hin). exact Hrows. }
    assert (Hnone : count (fun o => negb (is_some o)) entries = 0%nat).
    { clear -Hsome Hlen. unfold count in *.
      pose proof (filter_length is_some entries) as F. lia. }
    assert (Hp : count passes_validity entries = 95%nat) by lia.
    unfold score. rewrite Hp, Hrows. reflexivity.
Qed.

Lemma validity_score_formula_witness :
  let L := Sample.library Sample.no_frame in
  let df := Sample.hundred_amounts in
  let entries := map (to_numeric L) (column_of df "TransactionAmount") in
  validity_check L df Sample.validity_only = Ok (PFloat (950 # 10), Some 5%nat) /\
  (round1 (Qnat (count passes_validity entries) / Qnat (len_df df) * 100) == 95)%Q.
Proof.
  pose proof (validity_score_formula (Sample.library Sample.no_frame) Sample.clock
                Sample.hundred_amounts Sample.validity_only "TransactionAmount"
                eq_refl (conj eq_refl (conj eq_refl eq_refl)) eq_refl) as H.
  split; [reflexivity |].
  apply H; reflexivity.
Defined.

(** ** Uniqueness *)

(** [distinct] keeps one entry of each value. *)
Lemma distinct_incl (x : cell) (l : list cell) : In x (distinct l) -> In x l.
Proof.
  induction l as [| y l IH]; simpl; [tauto |].
  destruct (existsb (cell_eqb y) l); simpl; intuition.
Qed.

Lemma distinct_no_repeat (l : list cell) :
  ForallOrdPairs (fun a b => cell_eqb a b = false) (distinct l).
Proof.
  induction l as [| y l IH]; simpl; [constructor |].
  destruct (existsb (cell_eqb y) l) eqn:E; [exact IH |].
  constructor; [| exact IH].
  apply Forall_forall. intros b Hb. apply distinct_incl in Hb.
  destruct (cell_eqb y b) eqn:Eb; [| reflexivity].
  assert (existsb (cell_eqb y) l = true) by (apply existsb_exists; eauto).
  congruence.
Qed.

Lemma distinct_covers (x : cell) (l : list cell) :
  (forall a b c, cell_eqb a b = true -> cell_eqb b c = true -> cell_eqb a c = true) ->
  In x l -> exists y, In y (distinct l) /\ (x = y \/ cell_eqb x y = true).
Proof.
  intros Htrans. revert x. induction l as [| z l IH]; simpl; intros x; [tauto |].
  intros [-> | Hin].
  - destruct (existsb (cell_eqb x) l) eqn:E.
    + apply existsb_exists in E. destruct E as (w & Hw & Hxw).
      destruct (IH w Hw) as (y & Hy & [-> | Hwy]); exists y; eauto.
    + exists x; simpl; auto.
  - destruct (IH x Hin) as (y & Hy & Hxy).
    exists y. split; [| exact Hxy].
    destruct (existsb (cell_eqb z) l); simpl; auto.
Qed.

(** C7.  On a non-empty dataset: when the configured uniqueness column is a
    column of the dataset, the result is 100 if it has no non-missing entry
    and otherwise 100 x (distinct non-missing values) / (non-missing
    entries), rounded to one decimal; when the column is not there, the
    result is the "N/A" sentinel. *)
Theorem uniqueness_score_formula (L : Library) (clk : Clock) (df : DataFrame)
    (config : pydict) :
  df_empty df = false ->
  (forall c, configured df config "uniqueness_col" c ->
     let present := filter notnull (column_of df c) in
     let score :=
       match present with
       | [] => 100
       | _ => round1 (Qnat (List.length (distinct present))
                      / Qnat (List.length present) * 100)
       end in
     (exists duplicates, uniqueness_check df config = Ok (PFloat score, duplicates)) /\
     match run_mock_dama_checks L clk (Some df) config with
     | Ok (results, _) => sget results "Uniqueness" = Some (PFloat score)
     | Raise _ => config_typed config = false
     end) /\
  (not_present df config "uniqueness_col" ->
     uniqueness_check df config = Ok (PStr "N/A (Col missing)", None) /\
     match run_mock_dama_checks L clk (Some df) config with
     | Ok (results, _) => sget results "Uniqueness" = Some (PStr "N/A (Col missing)")
     | Raise _ => config_typed config = false
     end).
Proof.
  intros Hne.
  assert (Run : forall d, uniqueness_check df config = Ok d ->
                match run_mock_dama_checks L clk (Some df) config with
                | Ok (results, _) => sget results "Uniqueness" = Some (fst d)
                | Raise _ => config_typed config = false
                end).
  { intros d Hd.
    pose proof (run_mock_dama_checks_cases L clk df config Hne) as H.
    destruct (run_mock_dama_checks L clk (Some df) config) as [[results issues] | e];
      [| exact H].
    destruct H as (c0 & u & t & v & k & _ & Hu & _ & _ & _ & ->).
    rewrite Hd in Hu. injection Hu as <-. reflexivity. }
  split.
  - intros c (Hcol & Hc & Hin) present score.
    assert (U : uniqueness_check df config
                = Ok (PFloat score,
                      issue (List.length present - List.length (distinct present)))).
    { unfold uniqueness_check. rewrite Hcol, (py_and_in_configured df c Hc Hin).
      cbn [bind]. rewrite (getitem_column_of df c Hin). cbn [bind catch].
      unfold nunique. rewrite filter_notnull_idem. fold present.
      unfold score. destruct present as [| x xs] eqn:E; [reflexivity |].
      replace (0 <? List.length (x :: xs))%nat with true by reflexivity.
      rewrite calculate_percentage_rows by (simpl; lia). reflexivity. }
    split; [eauto |]. exact (Run _ U).
  - intros Hnp.
    assert (U : uniqueness_check df config = Ok (PStr "N/A (Col missing)", None)).
    { unfold uniqueness_check. now rewrite (py_and_in_not_present df config _ Hnp). }
    split; [exact U |]. exact (Run _ U).
Qed.

Lemma uniqueness_score_formula_witness :
  df_empty Sample.customers = false /\
  (exists duplicates,
     uniqueness_check Sample.customers Sample.default_config
     = Ok (PFloat (667 # 10), duplicates)) /\
  uniqueness_check Sample.amounts_only Sample.default_config
  = Ok (PStr "N/A (Col missing)", None).
Proof.
  split; [reflexivity |]. split.
  - pose proof (proj1 (uniqueness_score_formula (Sample.library Sample.no_frame)
                         Sample.clock Sample.customers Sample.default_config eq_refl)
                  "CustomerID" (conj eq_refl (conj eq_refl eq_refl))) as H.
    vm_compute in H. vm_compute. exact (proj1 H).
  - pose proof (proj2 (uniqueness_score_formula (Sample.library Sample.no_frame)
                         Sample.clock Sample.amounts_only Sample.default_config eq_refl)
                  (or_intror (ex_intro _ "CustomerID" (conj eq_refl eq_refl)))) as H.
    vm_compute in H. vm_compute. exact (proj1 H).
Defined.

(** ** Timeliness *)

Lemma now_compare_axis (L : Library) (clk : Clock) (column : list cell) :
  exists nc,
    now_compare L (datetime_tz L column) (get_current_time L clk) = Ok nc /\
    ts_instant nc = now_on_axis L clk column /\
    same_awareness (datetime_tz L column) (ts_tz nc) = true.
Proof.
  unfold now_on_axis, now_compare, get_current_time, APP_TIMEZONE.
  destruct (datetime_tz L column) as [tz |]; simpl.
  - eexists; split; [reflexivity |]. unfold ts_instant; simpl. split; [lia | reflexivity].
  - eexists; split; [reflexivity |]. split; reflexivity.
Qed.

(** C6.  On a non-empty dataset that has the configured timeliness column:
    when no entry of the column parses as a date the result is the "N/A"
    sentinel; otherwise, the freshness window being a number of days, it is
    100 x (entries whose date is strictly after now minus the window) /
    (number of rows, unparseable dates included), rounded to one decimal. *)
Theorem timeliness_score_formula (L : Library) (clk : Clock) (df : DataFrame)
    (config : pydict) (c : string) :
  df_empty df = false ->
  configured df config "timeliness_col" c ->
  let column := column_of df c in
  let dates := map (to_datetime L) column in
  let reported (expected : pyval) :=
    (exists outdated, timeliness_check L clk df config = Ok (expected, outdated)) /\
    match run_mock_dama_checks L clk (Some df) config with
    | Ok (results, _) => sget results "Timeliness" = Some expected
    | Raise _ => config_typed config = false
    end in
  (dropna dates = [] -> reported (PStr "N/A (No valid dates)")) /\
  (forall days,
     dropna dates <> [] ->
     py_number (py_get_default config "timeliness_days" (PInt 90)) = Ok days ->
     let timely := count (is_timely (cutoff L clk column days)) dates in
     reported (PFloat (round1 (Qnat timely / Qnat (len_df df) * 100)))).
Proof.
  intros Hne (Hcol & Hc & Hin) column dates reported.
  assert (Run : forall expected outdated,
            timeliness_check L clk df config = Ok (expected, outdated) ->
            reported expected).
  { intros expected outdated T. split; [eauto |].
    pose proof (run_mock_dama_checks_cases L clk df config Hne) as H.
    destruct (run_mock_dama_checks L clk (Some df) config) as [[results issues] | e];
      [| exact H].
    destruct H as (c0 & u & t & v & k & _ & _ & Ht & _ & _ & ->).
    rewrite T in Ht. injection Ht as <-. reflexivity. }
  assert (Body : timeliness_check L clk df config
                 = Ok (catch
                         (match dropna dates with
                          | _ :: _ =>
                              let now := get_current_time L clk in
                              now_cmp <- now_compare L (datetime_tz L column) now ;;
                              days <- py_number
                                        (py_get_default config "timeliness_days" (PInt 90)) ;;
                              let limit_date :=
                                (inject_Z (ts_instant now_cmp)
                                 - days * inject_Z NS_PER_DAY)%Q in
                              timely_records <-
                                count_after (datetime_tz L column) (dropna dates)
                                  (ts_tz now_cmp) limit_date ;;
                              Ok (PFloat (calculate_percentage (Qnat timely_records)
                                            (Qnat (len_df df))),
                                  issue (List.length (dropna dates) - timely_records))
                          | [] => Ok (PStr "N/A (No valid dates)", None)
                          end)
                         (fun e => (error_string e, None)))).
  { unfold timeliness_check. rewrite Hcol, (py_and_in_configured df c Hc Hin).
    cbn [bind]. rewrite (getitem_column_of df c Hin). cbn [bind catch].
    fold column. fold dates. destruct (dropna dates); reflexivity. }
  split.
  - intros Hnone. rewrite Hnone in Body. exact (Run _ _ Body).
  - intros days Hsome Hdays timely.
    destruct (dropna dates) as [| d ds] eqn:D; [contradiction |].
    destruct (now_compare_axis L clk column) as (nc & Hnc & Hax & Haw).
    cbn zeta in Body. rewrite Hnc in Body. cbn [bind] in Body.
    rewrite Hdays in Body. cbn [bind] in Body.
    unfold count_after in Body. rewrite Haw in Body. cbn [bind catch] in Body.
    rewrite Hax in Body. fold (cutoff L clk column days) in Body.
    rewrite (calculate_percentage_rows _ _ (df_nonempty_rows df Hne)) in Body.
    rewrite <- D in Body.
    rewrite (count_dropna (fun d => Qlt_bool (cutoff L clk column days) (inject_Z d)) dates)
      in Body.
    exact (Run _ _ Body).
Qed.

Lemma timeliness_score_formula_witness :
  exists outdated,
    timeliness_check (Sample.library Sample.no_frame) Sample.clock
      Sample.customers Sample.default_config
    = Ok (PFloat (500 # 10), outdated).
Proof.
  destruct (timeliness_score_formula (Sample.library Sample.no_frame) Sample.clock
              Sample.customers Sample.default_config "PurchaseDate"
              eq_refl (conj eq_refl (conj eq_refl eq_refl))) as [_ H].
  pose proof (H 90%Q) as H90. vm_compute in H90. vm_compute.
  apply H90; [discriminate | reflexivity].
Defined.

(** ** The trust score *)

Lemma dimension_result_shape (v : pyval) :
  dimension_result_ok v -> (exists q, v = PFloat q) \/ (exists s, v = PStr s).
Proof.
  intros [(q & -> & _) | [(s & ->) | (s & ->)]]; eauto.
Qed.

(** The filter of the code keeps exactly the results that are not
    sentinels: the trust score computed from the results of the scorer is
    the mean the specification describes. *)
Lemma trust_score_of_results (L : Library) (clk : Clock) (df : DataFrame)
    (config : pydict) (results : sdict) (issues : list (string * nat)) :
  df_empty df = false ->
  run_mock_dama_checks L clk (Some df) config = Ok (results, issues) ->
  trust_score_of (valid_scores_of results) = spec_trust_score results.
Proof.
  intros Hne R.
  destruct (run_mock_dama_checks_results_ok L clk df config results issues Hne R)
    as [_ H].
  unfold valid_scores_of, spec_trust_score.
  assert (E : filter is_number (map snd results)
              = filter (fun v => negb (is_sentinel v)) (map snd results)).
  { induction H as [| v vs Hv _ IH]; [reflexivity |].
    simpl. destruct (dimension_result_shape v Hv) as [(q & ->) | (s & ->)]; simpl;
      now rewrite IH. }
  rewrite E.
  destruct (filter (fun v => negb (is_sentinel v)) (map snd results)); simpl;
    [reflexivity |].
  now rewrite length_map.
Qed.

(** When [simulate_sql_analysis] returns, its trust score is that mean. *)
Lemma simulate_sql_analysis_trust (L : Library) (clk : Clock) (df : DataFrame)
    (config : pydict) (sql : string) (trust : pyval) (results : sdict)
    (issues : list (string * nat)) :
  simulate_sql_analysis L clk (Some df) config = Ok (sql, trust, results, issues) ->
  trust = spec_trust_score results.
Proof.
  unfold simulate_sql_analysis.
  destruct (df_empty df) eqn:Hne.
  - intros H; inversion H; reflexivity.
  - intros H. inv_bind H. destruct a as [res iss]. cbn [fst snd] in H.
    inv_bind H. inv_bind H. inv_bind H. inv_bind H.
    injection H as _ <- <- _.
    now apply (trust_score_of_results L clk df config res iss).
Qed.

(** The search for the lowest dimension compares every value with the
    current lowest: it fails as soon as a number meets a text. *)

Lemma min_by_value_mixed (best : string * pyval) (rest : sdict) :
  Forall (fun v => (exists q, v = PFloat q) \/ (exists s, v = PStr s))
         (snd best :: map snd rest) ->
  existsb (fun kv => negb (same_kind (snd kv) (snd best))) rest = true ->
  exists msg, min_by_value best rest = Raise (Exc TypeError msg).
Proof.
  revert best. induction rest as [| kv rest IH]; intros best Hall Hex; [discriminate |].
  simpl in Hex. inversion Hall as [| b l Hb Hrest]; subst.
  inversion Hrest as [| v l' Hv Hrest']; subst.
  simpl.
  destruct Hb as [(qb & Eb) | (sb & Eb)], Hv as [(qv & Ev) | (sv & Ev)];
    rewrite Eb, Ev in *; simpl in *.
  - destruct (Qlt_le_dec qv qb); apply IH; simpl; try rewrite Ev; try rewrite Eb;
      try (constructor; eauto); try assumption.
  - eauto.
  - eauto.
  - destruct (sv <? sb)%string; apply IH; simpl; try rewrite Ev; try rewrite Eb;
      try (constructor; eauto); try assumption.
Qed.

(** Whenever the scorer returns both a number and a sentinel,
    [simulate_sql_analysis] raises instead of returning a trust score. *)
Lemma simulate_sql_analysis_mixed (L : Library) (clk : Clock) (df : DataFrame)
    (config : pydict) (results : sdict) (issues : list (string * nat)) :
  df_empty df = false ->
  run_mock_dama_checks L clk (Some df) config = Ok (results, issues) ->
  existsb is_number (map snd results) = true ->
  existsb is_sentinel (map snd results) = true ->
  exists e, simulate_sql_analysis L clk (Some df) config = Raise e.
Proof.
  intros Hne R Hnum Hstr.
  destruct (run_mock_dama_checks_results_ok L clk df config results issues Hne R)
    as [_ Hall].
  assert (Hshape : Forall (fun v => (exists q, v = PFloat q) \/ (exists s, v = PStr s))
                     (map snd results)).
  { eapply Forall_impl; [| exact Hall]. apply dimension_result_shape. }
  unfold simulate_sql_analysis. rewrite Hne, R. cbn [bind fst snd].
  destruct (in_columns df (py_get config "validity_col")); [| now eexists]. cbn [bind].
  destruct (in_columns df (py_get config "uniqueness_col")); [| now eexists]. cbn [bind].
  destruct (in_columns df (py_get_default config "consistency_col" (PStr "Score")));
    [| now eexists]. cbn [bind].
  assert (V : valid_scores_of results <> []).
  { unfold valid_scores_of. clear -Hnum.
    induction (map snd results) as [| v vs IH]; [discriminate |].
    simpl in *. destruct (is_number v); simpl; [discriminate | auto]. }
  destruct (valid_scores_of results) as [| s ss]; [contradiction |].
  destruct results as [| kv rest]; [discriminate |].
  cbn [py_min_key].
  assert (Hmix : existsb (fun x => negb (same_kind (snd x) (snd kv))) rest = true).
  { simpl in Hnum, Hstr. inversion Hshape as [| b l Hb _]; subst.
    clear -Hnum Hstr Hb.
    destruct Hb as [(q & Eb) | (s & Eb)]; rewrite Eb in *; simpl in *.
    - induction rest as [| x xs IH]; [discriminate |]. simpl in *.
      unfold same_kind. destruct (is_sentinel (snd x)) eqn:S.
      + destruct (snd x); try discriminate. reflexivity.
      + rewrite orb_true_iff. right. apply IH. exact Hstr.
    - induction rest as [| x xs IH]; [discriminate |]. simpl in *.
      unfold same_kind. destruct (is_number (snd x)) eqn:S.
      + reflexivity.
      + simpl. apply IH. exact Hnum. }
  destruct (min_by_value_mixed kv rest Hshape Hmix) as [msg Hmsg].
  rewrite Hmsg. now eexists.
Qed.

Lemma in_columns_typed (df : DataFrame) (v : pyval) :
  column_name_ok v = true -> exists b, in_columns df v = Ok b.
Proof.
  destruct v; try discriminate; intros _; unfold in_columns; simpl; eauto.
Qed.

Lemma min_by_value_numbers (best : string * pyval) (rest : sdict) :
  is_number (snd best) = true ->
  forallb is_number (map snd rest) = true ->
  exists k, min_by_value best rest = Ok k.
Proof.
  revert best. induction rest as [| kv rest IH]; intros best Hb Hr; simpl; [eauto |].
  simpl in Hr. apply andb_prop in Hr. destruct Hr as [Hkv Hrest].
  assert (E : exists b, py_lt (snd kv) (snd best) = Ok b).
  { unfold py_lt. rewrite Hkv, Hb. simpl.
    destruct (snd kv), (snd best); try discriminate; eauto. }
  destruct E as [b ->]. simpl. apply IH; [| exact Hrest].
  destruct b; assumption.
Qed.

(** With a configuration whose column fields are names, the analysis
    returns the trust score of the specification whenever the dimensions
    are all numbers or all sentinels. *)
Lemma simulate_sql_analysis_uniform (L : Library) (clk : Clock) (df : DataFrame)
    (config : pydict) (results : sdict) (issues : list (string * nat)) :
  df_empty df = false ->
  config_typed config = true ->
  run_mock_dama_checks L clk (Some df) config = Ok (results, issues) ->
  forallb is_number (map snd results) = true \/
  forallb is_sentinel (map snd results) = true ->
  exists sql,
    simulate_sql_analysis L clk (Some df) config
    = Ok (sql, spec_trust_score results, results, issues).
Proof.
  intros Hne Ht R Huni.
  rewrite <- (trust_score_of_results L clk df config results issues Hne R).
  unfold config_typed in Ht.
  repeat (apply andb_prop in Ht; destruct Ht as [Ht ?]).
  unfold simulate_sql_analysis. rewrite Hne, R. cbn [bind fst snd].
  destruct (in_columns_typed df (py_get config "validity_col")) as [b1 ->];
    [assumption |]. cbn [bind].
  destruct (in_columns_typed df (py_get config "uniqueness_col")) as [b2 ->];
    [assumption |]. cbn [bind].
  destruct (in_columns_typed df (py_get_default config "consistency_col" (PStr "Score")))
    as [b3 ->].
  { unfold py_get_default. unfold py_get in *.
    destruct (dict_get key_eqb config (KStr "consistency_col")); [assumption | reflexivity]. }
  cbn [bind].
  destruct (valid_scores_of results) as [| s ss] eqn:V.
  - cbn [bind]. eexists; reflexivity.
  - destruct Huni as [Hnum | Hstr].
    + destruct results as [| kv rest]; [discriminate |].
      simpl in Hnum. apply andb_prop in Hnum. destruct Hnum as [Hkv Hrest].
      destruct (min_by_value_numbers kv rest Hkv Hrest) as [k Hk].
      cbn [py_min_key]. rewrite Hk. cbn [bind]. eexists; reflexivity.
    + exfalso. unfold valid_scores_of in V. clear -V Hstr.
      induction (map snd results) as [| v vs IH]; [discriminate |].
      simpl in *. apply andb_prop in Hstr. destruct Hstr as [Hv Hvs].
      destruct v; try discriminate. simpl in V. auto.
Qed.

(** C3.  A dataset that has only the amounts column, scored with the
    default rules: completeness and validity are 100.0, the three other
    dimensions are "N/A".  The mean of the numeric results is 100.0, and the
    code computes it, but [simulate_sql_analysis] then raises [TypeError]
    while it looks for the lowest dimension: no trust score is returned. *)
Theorem trust_score_lost_when_results_are_mixed :
  let L := Sample.library Sample.no_frame in
  let results :=
    [ ("Completeness", PFloat (1000 # 10));
      ("Uniqueness", PStr "N/A (Col missing)");
      ("Timeliness", PStr "N/A (Col missing or invalid limit: 90)");
      ("Validity", PFloat (1000 # 10));
      ("Consistency", PStr "N/A (Col/Range missing)") ] in
  run_mock_dama_checks L Sample.clock (Some Sample.amounts_only) Sample.default_config
  = Ok (results, []) /\
  spec_trust_score results = PFloat (1000 # 10) /\
  simulate_sql_analysis L Sample.clock (Some Sample.amounts_only) Sample.default_config
  = Raise (Exc TypeError "'<' not supported between instances").
Proof.
  repeat split; vm_compute; reflexivity.
Qed.

(** C8.  The default rules with a freshness window that is not a number, on
    a dataset that has every configured column: the failure of the
    timeliness computation is caught and recorded as "Error (...)" for that
    dimension, and the four other dimensions are computed.  But the
    aggregate is lost: [simulate_sql_analysis] raises [TypeError] when it
    compares the sentinel with the numbers.  And a failure met while the
    configured columns are read (here a missing list of columns, which is
    iterated before the [try]) is not caught at all. *)
Theorem errored_dimension_breaks_the_aggregate :
  let L := Sample.library Sample.no_frame in
  run_mock_dama_checks L Sample.clock (Some Sample.customers) Sample.bad_window_config
  = Ok ([ ("Completeness", PFloat (833 # 10));
          ("Uniqueness", PFloat (667 # 10));
          ("Timeliness", PStr "Error (unsupported operand type)");
          ("Validity", PFloat (500 # 10));
          ("Consistency", PFloat (750 # 10)) ],
        [ ("Completeness", 2%nat); ("Uniqueness", 1%nat);
          ("Validity", 1%nat); ("Consistency", 1%nat) ]) /\
  simulate_sql_analysis L Sample.clock (Some Sample.customers) Sample.bad_window_config
  = Raise (Exc TypeError "'<' not supported between instances") /\
  run_mock_dama_checks L Sample.clock (Some Sample.customers) Sample.null_columns_config
  = Raise (Exc TypeError "object is not iterable").
Proof.
  repeat split; vm_compute; reflexivity.
Qed.

(** An exception raised inside the guarded part of a dimension never leaves
    [run_mock_dama_checks]: with a configuration whose column fields are
    names, all five dimensions are reported whatever the other fields hold. *)
Lemma guarded_failures_are_recorded (L : Library) (clk : Clock) (df : DataFrame)
    (config : pydict) :
  df_empty df = false -> config_typed config = true ->
  exists results issues,
    run_mock_dama_checks L clk (Some df) config = Ok (results, issues) /\
    map fst results = dimension_names /\
    Forall dimension_result_ok (map snd results).
Proof.
  intros Hne Ht.
  destruct (run_mock_dama_checks_typed L clk df config Hne Ht) as [[results issues] R].
  exists results, issues. split; [exact R |].
  now apply (run_mock_dama_checks_results_ok L clk df config results issues).
Qed.

(** With no numeric result the trust score is 0. *)
Lemma trust_score_without_numbers (results : sdict) :
  forallb is_sentinel (map snd results) = true ->
  spec_trust_score results = PInt 0.
Proof.
  unfold spec_trust_score. intros H.
  induction (map snd results) as [| v vs IH]; [reflexivity |].
  simpl in *. apply andb_prop in H. destruct H as [Hv Hvs].
  rewrite Hv. simpl. now apply IH.
Qed.

(** ** The scorer on the sample table *)

Example customers_scores :
  run_mock_dama_checks (Sample.library Sample.no_frame) Sample.clock
    (Some Sample.customers) Sample.default_config
  = Ok ([ ("Completeness", PFloat (833 # 10)); ("Uniqueness", PFloat (667 # 10));
          ("Timeliness", PFloat (500 # 10)); ("Validity", PFloat (500 # 10));
          ("Consistency", PFloat (750 # 10)) ],
        [ ("Completeness", 2%nat); ("Uniqueness", 1%nat); ("Timeliness", 1%nat);
          ("Validity", 1%nat); ("Consistency", 1%nat) ]).
Proof. vm_compute. reflexivity. Qed.

Example customers_trust_score :
  exists sql,
    simulate_sql_analysis (Sample.library Sample.no_frame) Sample.clock
      (Some Sample.customers) Sample.default_config
    = Ok (sql, PFloat (650 # 10),
          [ ("Completeness", PFloat (833 # 10)); ("Uniqueness", PFloat (667 # 10));
            ("Timeliness", PFloat (500 # 10)); ("Validity", PFloat (500 # 10));
            ("Consistency", PFloat (750 # 10)) ],
          [ ("Completeness", 2%nat); ("Uniqueness", 1%nat); ("Timeliness", 1%nat);
            ("Validity", 1%nat); ("Consistency", 1%nat) ]).
Proof. eexists. vm_compute. reflexivity. Qed.

Example no_rules_no_score :
  exists sql results,
    simulate_sql_analysis (Sample.library Sample.no_frame) Sample.clock
      (Some Sample.customers) []
    = Ok (sql, PInt 0, results, []) /\
    forallb is_sentinel (map snd results) = true.
Proof. do 2 eexists. split; vm_compute; reflexivity. Qed.

Example no_data_no_score :
  simulate_sql_analysis (Sample.library Sample.no_frame) Sample.clock None
    Sample.default_config
  = Ok ("-- No data for analysis --", PInt 0, [], []).
Proof. reflexivity. Qed.

Example rounding_to_one_decimal :
  (round1 (1 # 8) == 1 # 10)%Q /\ (round1 (200 # 3) == 667 # 10)%Q /\
  (round1 (100 * (97 # 100)) == 97)%Q.
Proof. repeat split. Qed.

(** ** Consistency and the shape of the range *)

Lemma consistency_needs_a_pair (L : Library) (clk : Clock) (df : DataFrame)
    (config : pydict) (c : string) (range : pyval) :
  df_empty df = false ->
  configured df config "consistency_col" c ->
  dict_get key_eqb config (KStr "consistency_range") = Some range ->
  (forall lo hi, range <> PTuple [lo; hi]) ->
  consistency_check L df config = Ok (PStr "N/A (Col/Range missing)", None) /\
  match run_mock_dama_checks L clk (Some df) config with
  | Ok (results, _) => sget results "Consistency" = Some (PStr "N/A (Col/Range missing)")
  | Raise _ => config_typed config = false
  end.
Proof.
  intros Hne (Hcol & Hc & Hin) Hrange Hshape.
  assert (K : consistency_check L df config = Ok (PStr "N/A (Col/Range missing)", None)).
  { unfold consistency_check, py_get_default. rewrite Hrange, Hcol.
    rewrite (py_and_in_configured df c Hc Hin). cbn [bind].
    destruct range; try reflexivity.
    destruct l as [| lo [| hi [| x l]]]; try reflexivity.
    exfalso. now apply (Hshape lo hi). }
  split; [exact K |].
  pose proof (run_mock_dama_checks_cases L clk df config Hne) as H.
  destruct (run_mock_dama_checks L clk (Some df) config) as [[results issues] | e];
    [| exact H].
  destruct H as (c0 & u & t & v & k & _ & _ & _ & _ & Hk & ->).
  rewrite K in Hk. injection Hk as <-. reflexivity.
Qed.

(** ** Dictionaries *)

Lemma sget_sset (d : sdict) (k k' : string) (v : pyval) :
  sget (sset d k v) k' = if String.eqb k' k then Some v else sget d k'.
Proof.
  unfold sget, sset. induction d as [| [x w] d IH]; simpl.
  - destruct (String.eqb k' k); reflexivity.
  - destruct (String.eqb k x) eqn:E; simpl.
    + apply String.eqb_eq in E; subst x.
      destruct (String.eqb k' k); reflexivity.
    + destruct (String.eqb k' x) eqn:E'.
      * apply String.eqb_eq in E'; subst x.
        rewrite String.eqb_sym, E. reflexivity.
      * exact IH.
Qed.

Lemma sget_sset_same (d : sdict) (k : string) (v : pyval) :
  sget (sset d k v) k = Some v.
Proof. now rewrite sget_sset, String.eqb_refl. Qed.

Lemma sget_sset_other (d : sdict) (k k' : string) (v : pyval) :
  k' <> k -> sget (sset d k v) k' = sget d k'.
Proof.
  intros H. rewrite sget_sset.
  destruct (String.eqb_spec k' k); [contradiction | reflexivity].
Qed.

Lemma sget_in_keys (d : sdict) (k : string) (v : pyval) :
  sget d k = Some v -> In k (map fst d).
Proof.
  unfold sget. induction d as [| [x w] d IH]; simpl; [discriminate |].
  destruct (String.eqb_spec k x); [auto | intros H; right; now apply IH].
Qed.

Lemma sget_not_in_keys (d : sdict) (k : string) :
  ~ In k (map fst d) -> sget d k = None.
Proof.
  intros H. destruct (sget d k) eqn:E; [| reflexivity].
  apply sget_in_keys in E. contradiction.
Qed.

Lemma sset_keys (d : sdict) (k : string) (v : pyval) :
  map fst (sset d k v) = if existsb (String.eqb k) (map fst d)
                         then map fst d else (map fst d ++ [k])%list.
Proof.
  unfold sset. induction d as [| [x w] d IH]; simpl; [reflexivity |].
  destruct (String.eqb k x) eqn:E; simpl; [reflexivity |].
  rewrite IH. destruct (existsb (String.eqb k) (map fst d)); reflexivity.
Qed.

Lemma existsb_eqb_In (k : string) (l : list string) :
  existsb (String.eqb k) l = true <-> In k l.
Proof.
  rewrite existsb_exists. split.
  - intros (x & Hx & E). apply String.eqb_eq in E. now subst.
  - intros H. exists k. split; [exact H | apply String.eqb_refl].
Qed.

Lemma sset_NoDup (d : sdict) (k : string) (v : pyval) :
  NoDup (map fst d) -> NoDup (map fst (sset d k v)).
Proof.
  intros H. rewrite sset_keys.
  destruct (existsb (String.eqb k) (map fst d)) eqn:E; [exact H |].
  apply NoDup_app; [exact H | repeat constructor; simpl; tauto |].
  intros x Hx [<- | []].
  apply existsb_eqb_In in Hx. congruence.
Qed.

Lemma sset_keys_incl (d : sdict) (k x : string) (v : pyval) :
  In x (map fst (sset d k v)) -> x = k \/ In x (map fst d).
Proof.
  rewrite sset_keys. destruct (existsb (String.eqb k) (map fst d)); [auto |].
  rewrite in_app_iff. simpl. intuition.
Qed.

(** A list of pairs with distinct string keys is the dictionary it builds. *)
Lemma dict_set_fresh (d : pydict) (k : string) (v : pyval) :
  ~ In k (map (fun kv => key_name (fst kv)) d) ->
  Forall (fun kv => is_str_key (fst kv) = true) d ->
  dict_set key_eqb d (KStr k) v = (d ++ [(KStr k, v)])%list.
Proof.
  induction d as [| [x w] d IH]; simpl; intros Hn Hs; [reflexivity |].
  inversion Hs as [| ? ? Hx Hd]; subst. simpl in Hx.
  destruct x as [s | |]; try discriminate. simpl in *.
  destruct (String.eqb_spec k s); [subst; tauto |].
  rewrite IH; [reflexivity | tauto | exact Hd].
Qed.

Lemma dict_of_pairs_distinct (l : list (string * pyval)) :
  NoDup (map fst l) ->
  dict_of_pairs key_eqb (map (fun kv => (KStr (fst kv), snd kv)) l)
  = map (fun kv => (KStr (fst kv), snd kv)) l.
Proof.
  unfold dict_of_pairs.
  assert (G : forall acc : list (string * pyval),
             NoDup (map fst acc ++ map fst l) ->
             fold_left (fun d kv => dict_set key_eqb d (fst kv) (snd kv))
               (map (fun kv => (KStr (fst kv), snd kv)) l)
               (map (fun kv => (KStr (fst kv), snd kv)) acc)
             = (map (fun kv => (KStr (fst kv), snd kv)) (acc ++ l))).
  { induction l as [| [k v] l IH]; intros acc Hnd; simpl.
    - now rewrite app_nil_r.
    - rewrite dict_set_fresh.
      + specialize (IH (acc ++ [(k, v)])%list).
        rewrite !map_app in IH. simpl in IH. rewrite <- !app_assoc in IH. simpl in IH.
        rewrite IH; [now rewrite !map_app |].
        simpl in Hnd. exact Hnd.
      + rewrite map_map. simpl.
        simpl in Hnd. apply NoDup_remove_2 in Hnd.
        intros Hin. apply Hnd. apply in_or_app. left. exact Hin.
      + apply Forall_forall. intros x Hx. apply in_map_iff in Hx.
        destruct Hx as (y & <- & _). reflexivity. }
  intros H. exact (G [] H).
Qed.

(** ** Writing and reading JSON *)

Lemma json_encode_list (l : list pyval) :
  json_encode (PList l) = (items <- mapM json_encode l ;; Ok (JArr items)).
Proof.
  simpl. f_equal.
  induction l as [| x l IH]; [reflexivity |].
  simpl. destruct (json_encode x); simpl; [| reflexivity]. now rewrite IH.
Qed.

Lemma json_encode_tuple (l : list pyval) :
  json_encode (PTuple l) = (items <- mapM json_encode l ;; Ok (JArr items)).
Proof.
  simpl. f_equal.
  induction l as [| x l IH]; [reflexivity |].
  simpl. destruct (json_encode x); simpl; [| reflexivity]. now rewrite IH.
Qed.

Lemma json_encode_dict (d : pydict) :
  json_encode (PDict d) = (members <- mapM encode_member d ;; Ok (JObj members)).
Proof.
  simpl. f_equal.
  induction d as [| [k x] d IH]; [reflexivity |].
  simpl. unfold encode_member at 1. simpl.
  destruct k; simpl; try reflexivity;
    destruct (json_encode x); simpl; try reflexivity; now rewrite IH.
Qed.

Lemma distinct_strings_NoDup (l : list string) :
  distinct_strings l = true <-> NoDup l.
Proof.
  induction l as [| x l IH]; simpl.
  - split; [constructor | reflexivity].
  - rewrite andb_true_iff, negb_true_iff, IH. split.
    + intros [Hx Hl]. constructor; [| exact Hl].
      intros Hin. apply existsb_eqb_In in Hin. congruence.
    + intros H. inversion H; subst. split; [| assumption].
      destruct (existsb (String.eqb x) l) eqn:E; [| reflexivity].
      apply existsb_eqb_In in E. contradiction.
Qed.

Lemma mapM_ok_Forall2 {A B : Type} (f : A -> res B) (l : list A) (out : list B) :
  mapM f l = Ok out -> Forall2 (fun a b => f a = Ok b) l out.
Proof.
  revert out. induction l as [| x l IH]; simpl; intros out H.
  - injection H as <-. constructor.
  - inv_bind H. inv_bind H. injection H as <-. constructor; auto.
Qed.

Lemma Forall2_mapM_ok {A B : Type} (f : A -> res B) (l : list A) (out : list B) :
  Forall2 (fun a b => f a = Ok b) l out -> mapM f l = Ok out.
Proof.
  induction 1 as [| a b l out Hab _ IH]; simpl; [reflexivity |].
  now rewrite Hab, IH.
Qed.

(** A JSON-safe value is written and read back unchanged. *)
Lemma json_round_trip_safe (v : pyval) :
  json_safe v = true -> json_round_trip v = Ok v.
Proof.
  unfold json_round_trip.
  induction v as [| | | | | | l IH | l IH | d IH | |] using pyval_nested_ind;
    simpl json_safe; intros Hs; try discriminate; try reflexivity.
  - (* lists *)
    rewrite json_encode_list.
    assert (M : exists js, mapM json_encode l = Ok js /\ map json_decode js = l).
    { induction l as [| x l IHl]; simpl; [eauto |].
      simpl in Hs. apply andb_prop in Hs. destruct Hs as [Hx Hl].
      inversion IH as [| ? ? IHx IHr]; subst.
      specialize (IHx Hx). destruct (json_encode x) as [jx | e]; [| discriminate].
      simpl in IHx. injection IHx as IHx.
      destruct (IHl IHr Hl) as (js & -> & Hjs). simpl.
      eexists; split; [reflexivity |]. simpl. now rewrite IHx, Hjs. }
    destruct M as (js & -> & Hjs). simpl. now rewrite Hjs.
  - (* dictionaries *)
    rewrite json_encode_dict.
    apply andb_prop in Hs. destruct Hs as [Hall Hdist].
    apply distinct_strings_NoDup in Hdist.
    assert (M : exists ms,
               mapM encode_member d = Ok ms /\
               map (fun m => (KStr (fst m), json_decode (snd m))) ms
               = map (fun kv => (KStr (fst kv), snd kv))
                     (map (fun kv => (key_name (fst kv), snd kv)) d) /\
               map (fun kv => (KStr (fst kv), snd kv))
                   (map (fun kv => (key_name (fst kv), snd kv)) d) = d).
    { clear Hdist. induction d as [| [k x] d IHd]; simpl; [eauto |].
      simpl in Hall. apply andb_prop in Hall. destruct Hall as [Hkx Hd].
      apply andb_prop in Hkx. destruct Hkx as [Hk Hx].
      inversion IH as [| ? ? IHx IHr]; subst. simpl in IHx.
      specialize (IHx Hx). destruct (json_encode x) as [jx | e] eqn:Ex; [| discriminate].
      simpl in IHx. injection IHx as IHx.
      destruct k as [s | |]; try discriminate.
      destruct (IHd IHr Hd) as (ms & Hms & E1 & E2).
      unfold encode_member at 1. simpl. rewrite Ex. simpl. rewrite Hms. simpl.
      eexists; split; [reflexivity |]. simpl. rewrite IHx, E1, E2. auto. }
    destruct M as (ms & -> & E1 & E2). simpl.
    rewrite E1, dict_of_pairs_distinct, E2; [reflexivity |].
    now rewrite map_map.
Qed.

(** ** What [save_app_state_json] writes *)

Lemma collect_state_spec (L : Library) (keys : list string) (st : session_state)
    (acc out : sdict) :
  collect_state L keys st acc = Ok out ->
  NoDup keys ->
  (forall k, ~ In k keys -> sget out k = sget acc k) /\
  (forall k, In k keys ->
     match sget st k with
     | Some v =>
         exists stored,
           persist_value L k v = Ok stored /\
           sget out k = match stored with Some w => Some w | None => sget acc k end
     | None => sget out k = sget acc k
     end) /\
  (NoDup (map fst acc) -> NoDup (map fst out)).
Proof.
  revert acc. induction keys as [| key keys IH]; intros acc H Hnd.
  - simpl in H. injection H as <-. repeat split; auto. intros k [].
  - inversion Hnd as [| ? ? Hkey Hkeys]; subst. simpl in H.
    destruct (sget st key) as [value |] eqn:Eg.
    + inv_bind H. rename a into stored.
      destruct (IH _ H Hkeys) as (Hout & Hin & Hdup).
      assert (Hacc : forall k, k <> key ->
                sget (match stored with Some v => sset acc key v | None => acc end) k
                = sget acc k).
      { intros k Hk. destruct stored; [now apply sget_sset_other | reflexivity]. }
      split; [| split].
      * intros k Hk. rewrite Hout by (simpl in Hk; tauto).
        apply Hacc. simpl in Hk. intros ->. tauto.
      * intros k [<- | Hk].
        -- rewrite Eg. exists stored. split; [exact Ha |].
           rewrite (Hout key Hkey). destruct stored; [apply sget_sset_same | reflexivity].
        -- specialize (Hin k Hk).
           assert (k <> key) by (intros ->; contradiction).
           destruct (sget st k).
           ++ destruct Hin as (s' & Hp & Hs). exists s'. split; [exact Hp |].
              rewrite Hs. destruct s'; [reflexivity | now apply Hacc].
           ++ rewrite Hin. now apply Hacc.
      * intros Hn. apply Hdup. destruct stored; [now apply sset_NoDup | exact Hn].
    + destruct (IH _ H Hkeys) as (Hout & Hin & Hdup).
      split; [| split].
      * intros k Hk. apply Hout. simpl in Hk. tauto.
      * intros k [<- | Hk].
        -- rewrite Eg. now apply Hout.
        -- exact (Hin k Hk).
      * exact Hdup.
Qed.

Lemma keys_to_persist_NoDup : NoDup keys_to_persist.
Proof. apply distinct_strings_NoDup. reflexivity. Qed.

Lemma save_app_state_json_inv (L : Library) (st : session_state)
    (file : file_content) (msgs : list ui_msg) :
  save_app_state_json L st = Ok (file, true, msgs) ->
  exists state_to_save j,
    collect_state L keys_to_persist st [] = Ok state_to_save /\
    json_encode (as_pydict state_to_save) = Ok j /\
    file = Doc j /\ msgs = [].
Proof.
  unfold save_app_state_json. intros H. inv_bind H. rename a into out.
  exists out. destruct (json_encode (as_pydict out)) as [j | e]; simpl in H.
  - injection H as <- <-. eauto.
  - discriminate.
Qed.

(** The document read back: one item per stored key, holding what the
    stored value becomes through JSON. *)
Lemma saved_document_items (out : sdict) (j : json) :
  NoDup (map fst out) ->
  json_encode (as_pydict out) = Ok j ->
  exists items,
    py_items (json_decode j) = Ok items /\
    map fst items = map fst out /\
    Forall2 (fun kv item => fst item = fst kv /\
                            json_round_trip (snd kv) = Ok (snd item)) out items.
Proof.
  intros Hnd H. unfold as_pydict in H. rewrite json_encode_dict in H.
  inv_bind H. rename a into ms. injection H as <-.
  apply mapM_ok_Forall2 in Ha.
  assert (F : Forall2 (fun kv m => fst m = fst kv /\ json_encode (snd kv) = Ok (snd m)) out ms).
  { clear Hnd. remember (map (fun kv => (KStr (fst kv), snd kv)) out) as d eqn:Ed.
    revert out Ed. induction Ha as [| a m d ms Ham _ IH]; intros out Ed.
    - destruct out; [constructor | discriminate].
    - destruct out as [| [k v] out]; [discriminate |]. simpl in Ed.
      injection Ed as -> ->. unfold encode_member in Ham. simpl in Ham.
      destruct (json_encode v) as [jv | e] eqn:Ev; [| discriminate].
      simpl in Ham. injection Ham as <-. constructor; [simpl; auto | now apply IH]. }
  assert (Hk : map fst ms = map fst out).
  { clear -F. induction F as [| kv m out ms [E _] _ IH]; simpl; congruence. }
  assert (Hk2 : map fst (map (fun m : string * json => (fst m, json_decode (snd m))) ms)
                = map fst out).
  { rewrite map_map. simpl. rewrite <- Hk. apply map_ext. reflexivity. }
  simpl.
  replace (map (fun m => (KStr (fst m), json_decode (snd m))) ms)
    with (map (fun kv : string * pyval => (KStr (fst kv), snd kv))
              (map (fun m : string * json => (fst m, json_decode (snd m))) ms))
    by (rewrite map_map; reflexivity).
  rewrite dict_of_pairs_distinct by (rewrite Hk2; exact Hnd).
  exists (map (fun m : string * json => (fst m, json_decode (snd m))) ms).
  split; [| split; [exact Hk2 |]].
  - simpl. f_equal. rewrite map_map. simpl.
    erewrite map_ext; [apply map_id |]. intros [a b]; reflexivity.
  - clear -F. induction F as [| kv m out ms [E Hj] _ IH]; simpl; constructor; auto.
    simpl. split; [exact E |]. unfold json_round_trip. now rewrite Hj.
Qed.

(** ** What [load_app_state_json] stores *)

Lemma load_key_shape (L : Library) (key : string) (value : pyval) :
  (exists w, forall st, fst (load_key L key value st) = sset st key w) \/
  (forall st, fst (load_key L key value st) = st).
Proof.
  unfold load_key, load_raci, load_frame, load_roadmap, load_history.
  destruct value as [| b | z | q | s | b | l | l | d | t | f];
    try (left; eexists; intros; reflexivity).
  - destruct (String.eqb key "raci_df_json").
    + destruct (read_json_split L s) as [df | e]; cbn [bind catch];
        [| left; eexists; intros; reflexivity].
      destruct (has_column df "Activity"); [| left; eexists; intros; reflexivity].
      destruct (set_index "Activity" df); cbn [bind catch];
        left; eexists; intros; reflexivity.
    + destruct (ends_with "_df_json" key); [| left; eexists; intros; reflexivity].
      destruct (read_json_split L s); cbn [bind catch];
        [left; eexists; intros; reflexivity | right; intros; reflexivity].
  - destruct (String.eqb key "roadmap_data").
    + destruct (frames_of_items L d); cbn [bind catch];
        left; eexists; intros; reflexivity.
    + destruct (String.eqb key "maturity_assessments_history");
        [| left; eexists; intros; reflexivity].
      destruct (snd (parse_history L d [])); left; eexists; intros; reflexivity.
Qed.

Lemma load_key_other (L : Library) (key : string) (value : pyval)
    (st : session_state) (k : string) :
  k <> key -> sget (fst (load_key L key value st)) k = sget st k.
Proof.
  intros Hk. destruct (load_key_shape L key value) as [(w & H) | H]; rewrite H.
  - now apply sget_sset_other.
  - reflexivity.
Qed.

Lemma load_key_value (L : Library) (key : string) (value : pyval) (st : session_state) :
  sget (fst (load_key L key value st)) key
  = match loaded_value L key value with
    | Some w => Some w
    | None => sget st key
    end.
Proof.
  unfold loaded_value.
  destruct (load_key_shape L key value) as [(w & H) | H]; rewrite !H.
  - now rewrite !sget_sset_same.
  - reflexivity.
Qed.

Lemma load_items_other (L : Library) (items : list (string * pyval))
    (st : session_state) (k : string) :
  ~ In k (map fst items) -> sget (fst (load_items L items st)) k = sget st k.
Proof.
  revert st. induction items as [| [key value] items IH]; intros st Hk; [reflexivity |].
  simpl in *. rewrite IH by tauto. apply load_key_other. intros ->. tauto.
Qed.

Lemma load_items_value (L : Library) (items : list (string * pyval))
    (st : session_state) (k : string) (v : pyval) :
  NoDup (map fst items) -> In (k, v) items ->
  sget (fst (load_items L items st)) k
  = match loaded_value L k v with
    | Some w => Some w
    | None => sget st k
    end.
Proof.
  revert st. induction items as [| [key value] items IH]; intros st Hnd Hin; [destruct Hin |].
  simpl in Hnd. inversion Hnd as [| ? ? Hkey Hrest]; subst. simpl.
  destruct Hin as [E | Hin].
  - injection E as -> ->. rewrite load_items_other by exact Hkey.
    apply load_key_value.
  - rewrite (IH _ Hrest Hin).
    destruct (loaded_value L k v); [reflexivity |].
    apply load_key_other. intros ->. apply Hkey.
    apply in_map_iff. exists (key, v). auto.
Qed.

(** ** Saving, then loading *)

Lemma save_then_load (L : Library) (clk : Clock) (st st0 : session_state)
    (file : file_content) (msgs : list ui_msg) :
  save_app_state_json L st = Ok (file, true, msgs) ->
  let loaded := load_app_state_json L clk (Some file) st0 in
  snd (fst loaded) = true /\
  (forall k, ~ In k keys_to_persist -> sget (fst (fst loaded)) k = sget st0 k) /\
  (forall k, In k keys_to_persist ->
     match sget st k with
     | Some v =>
         exists stored,
           persist_value L k v = Ok stored /\
           match stored with
           | Some w =>
               exists w', json_round_trip w = Ok w' /\
                 sget (fst (fst loaded)) k
                 = match loaded_value L k w' with
                   | Some x => Some x
                   | None => sget st0 k
                   end
           | None => sget (fst (fst loaded)) k = sget st0 k
           end
     | None => sget (fst (fst loaded)) k = sget st0 k
     end).
Proof.
  intros Hsave loaded.
  destruct (save_app_state_json_inv L st file msgs Hsave) as (out & j & Hc & Hj & -> & ->).
  destruct (collect_state_spec L _ st [] out Hc keys_to_persist_NoDup) as (Hout & Hin & Hdup).
  specialize (Hdup (NoDup_nil _)).
  destruct (saved_document_items out j Hdup Hj) as (items & Hitems & Hkeys & F).
  assert (El : loaded = (fst (load_items L items st0), true, snd (load_items L items st0))).
  { unfold loaded, load_app_state_json. simpl. rewrite Hitems. reflexivity. }
  rewrite El. simpl.
  assert (Hnd : NoDup (map fst items)) by (rewrite Hkeys; exact Hdup).
  assert (Habsent : forall k, sget out k = None ->
                    sget (fst (load_items L items st0)) k = sget st0 k).
  { intros k Hk. apply load_items_other. rewrite Hkeys. intros Hi.
    clear -Hk Hi. unfold sget in Hk. induction out as [| [x w] out IH]; [destruct Hi |].
    simpl in *. destruct (String.eqb_spec k x); [discriminate |].
    destruct Hi as [-> | Hi]; [congruence | auto]. }
  assert (Hpresent : forall k w, sget out k = Some w ->
            exists w', json_round_trip w = Ok w' /\
              sget (fst (load_items L items st0)) k
              = match loaded_value L k w' with
                | Some x => Some x
                | None => sget st0 k
                end).
  { intros k w Hk.
    assert (I : exists w', json_round_trip w = Ok w' /\ In (k, w') items).
    { clear -F Hk. unfold sget in Hk.
      induction F as [| [x v] [y v'] out items [E Hr] _ IH]; [discriminate |].
      simpl in *. subst y. destruct (String.eqb_spec k x).
      - injection Hk as <-. subst x. exists v'. auto.
      - destruct (IH Hk) as (w' & ? & ?). exists w'. auto. }
    destruct I as (w' & Hr & Hi). exists w'. split; [exact Hr |].
    now apply load_items_value. }
  split; [reflexivity |]. split.
  - intros k Hk. apply Habsent. now rewrite Hout.
  - intros k Hk. specialize (Hin k Hk).
    destruct (sget st k) as [v |].
    + destruct Hin as (stored & Hp & Hs). exists stored. split; [exact Hp |].
      destruct stored as [w |]; [now apply Hpresent | now apply Habsent].
    + now apply Habsent.
Qed.

(** ** The cases of the round trip *)

Lemma plain_round_trip (L : Library) (key : string) (v : pyval) :
  json_safe v = true -> handled_specially key v = false ->
  persist_value L key v = Ok (Some v) /\
  json_round_trip v = Ok v /\
  loaded_value L key v = Some v.
Proof.
  intros Hs Hh. split; [| split; [now apply json_round_trip_safe |]].
  - destruct v; try discriminate; try reflexivity.
    simpl in Hh. apply orb_false_elim in Hh. destruct Hh as [H1 H2].
    simpl. now rewrite H1, H2.
  - unfold loaded_value, load_key.
    destruct v; try discriminate; try (apply sget_sset_same).
    + simpl in Hh. apply orb_false_elim in Hh. destruct Hh as [H1 H2].
      rewrite H1, H2. apply sget_sset_same.
    + simpl in Hh. apply orb_false_elim in Hh. destruct Hh as [H1 H2].
      rewrite H1, H2. apply sget_sset_same.
Qed.

Lemma omitted_round_trip (L : Library) (key : string) (v : pyval) :
  omitted v = true -> persist_value L key v = Ok None.
Proof.
  destruct v; try discriminate; reflexivity.
Qed.

(** *** The RACI table *)

Lemma combine_range_rows (rows : list (cell * list cell)) (labels : list cell) :
  List.length labels = List.length rows ->
  map (fun r : cell * list cell => (nth 0 (snd r) CNa, remove_nth 0 (snd r)))
      (map (fun ir : cell * (cell * list cell) =>
              (fst ir, fst (snd ir) :: snd (snd ir)))
           (combine labels rows))
  = rows.
Proof.
  revert labels. induction rows as [| [i cells] rows IH]; intros labels H.
  - destruct labels; reflexivity.
  - destruct labels as [| l labels]; [discriminate |].
    simpl. f_equal. apply IH. simpl in H. lia.
Qed.

Lemma set_index_reset_index (df flat : DataFrame) (c : string) :
  df_index_name df = Some c ->
  reset_index df = Ok flat ->
  has_column flat c = true /\ set_index c flat = Ok df.
Proof.
  unfold reset_index. intros Hn. rewrite Hn.
  destruct (has_column df c); [discriminate |].
  intros H. injection H as <-. split.
  - unfold has_column; simpl. now rewrite String.eqb_refl.
  - unfold set_index; simpl. rewrite String.eqb_refl. simpl.
    rewrite combine_range_rows.
    + destruct df; simpl in *. now rewrite Hn.
    + unfold range_index, len_df. now rewrite length_map, length_seq.
Qed.

Lemma raci_round_trip (L : Library) (df flat : DataFrame) :
  df_index_name df = Some "Activity" ->
  reset_index df = Ok flat ->
  read_json_split L (to_json_split L flat) = Ok flat ->
  persist_value L "raci_df_json" (PFrame df) = Ok (Some (PStr (to_json_split L flat))) /\
  json_round_trip (PStr (to_json_split L flat)) = Ok (PStr (to_json_split L flat)) /\
  loaded_value L "raci_df_json" (PStr (to_json_split L flat)) = Some (PFrame df).
Proof.
  intros Hn Hr Hread.
  destruct (set_index_reset_index df flat "Activity" Hn Hr) as [Hcol Hset].
  split; [| split; [reflexivity |]].
  - simpl. now rewrite Hr.
  - unfold loaded_value, load_key, load_raci. simpl.
    rewrite Hread. cbn [bind catch]. rewrite Hcol, Hset. reflexivity.
Qed.

(** *** The history *)

Lemma ts_eqb_refl (t : Timestamp) : ts_eqb t t = true.
Proof. unfold ts_eqb. destruct (ts_tz t); apply Z.eqb_refl. Qed.

Lemma key_eqb_refl (k : pykey) : key_eqb k k = true.
Proof.
  destruct k; simpl; [apply String.eqb_refl | apply Z.eqb_refl | apply ts_eqb_refl].
Qed.

Lemma key_eqb_sym (a b : pykey) : key_eqb a b = key_eqb b a.
Proof.
  destruct a, b; simpl; try reflexivity.
  - apply String.eqb_sym.
  - apply Z.eqb_sym.
  - unfold ts_eqb. destruct (ts_tz t), (ts_tz t0); try reflexivity; apply Z.eqb_sym.
Qed.

Lemma dict_set_append (d : pydict) (k : pykey) (v : pyval) :
  existsb (key_eqb k) (map fst d) = false ->
  dict_set key_eqb d k v = (d ++ [(k, v)])%list.
Proof.
  induction d as [| [x w] d IH]; simpl; [reflexivity |].
  intros H. apply orb_false_elim in H. destruct H as [Hx Hd].
  rewrite Hx. now rewrite IH.
Qed.

Section History.
Variable L : Library.
Variable h : pydict.
Hypothesis Htime : forallb is_time_key (map fst h) = true.
Hypothesis Hdistinct : distinct_keys (map fst h) = true.
Hypothesis Hsafe : forallb json_safe (map snd h) = true.
Hypothesis Hparse :
  forall t, In (KTime t) (map fst h) -> timestamp_of_string L (isoformat L t) = Ok t.

Lemma history_texts_distinct : NoDup (map fst (history_texts L h)).
Proof.
  clear Hsafe. unfold history_texts. rewrite map_map. simpl.
  induction h as [| [k v] d IH]; simpl; [constructor |].
  simpl in Htime, Hdistinct.
  apply andb_prop in Htime. destruct Htime as [Hk Ht].
  apply andb_prop in Hdistinct. destruct Hdistinct as [Hfresh Hd].
  apply negb_true_iff in Hfresh.
  destruct k as [| | t]; try discriminate.
  constructor.
  - intros Hin. apply in_map_iff in Hin. destruct Hin as ([k' v'] & E & Hin').
    simpl in E.
    assert (Hk' : In k' (map fst d)) by (apply in_map_iff; exists (k', v'); auto).
    assert (Tk : is_time_key k' = true).
    { rewrite forallb_forall in Ht. now apply Ht. }
    destruct k' as [| | t']; try discriminate. simpl in E.
    assert (P1 : timestamp_of_string L (isoformat L t) = Ok t)
      by (apply Hparse; simpl; auto).
    assert (P2 : timestamp_of_string L (isoformat L t') = Ok t')
      by (apply Hparse; simpl; auto).
    rewrite E in P2. rewrite P1 in P2. injection P2 as <-.
    assert (existsb (key_eqb (KTime t)) (map fst d) = true).
    { apply existsb_exists. exists (KTime t). split; [exact Hk' | apply key_eqb_refl]. }
    congruence.
  - apply IH; auto. intros t' Ht'. apply Hparse. simpl. auto.
Qed.

Lemma history_records_eq :
  history_records L h = map (fun kv => (KStr (fst kv), snd kv)) (history_texts L h).
Proof.
  unfold history_records.
  replace (map (fun ts_scores => (KStr (history_key L (fst ts_scores)), snd ts_scores)) h)
    with (map (fun kv : string * pyval => (KStr (fst kv), snd kv)) (history_texts L h))
    by (unfold history_texts; rewrite map_map; reflexivity).
  apply dict_of_pairs_distinct. exact history_texts_distinct.
Qed.

Lemma history_records_safe : json_safe (PDict (history_records L h)) = true.
Proof.
  rewrite history_records_eq. simpl. apply andb_true_intro. split.
  - unfold history_texts. rewrite map_map. simpl.
    clear -Hsafe. induction h as [| [k v] d IH]; simpl in *; [reflexivity |].
    apply andb_prop in Hsafe. destruct Hsafe as [-> Hd]. simpl. now apply IH.
  - rewrite map_map. simpl. apply distinct_strings_NoDup.
    exact history_texts_distinct.
Qed.

Lemma parse_history_all (d acc : pydict) :
  forallb is_time_key (map fst d) = true ->
  distinct_keys (map fst d) = true ->
  (forall t, In (KTime t) (map fst d) ->
             timestamp_of_string L (isoformat L t) = Ok t) ->
  Forall (fun k => existsb (key_eqb k) (map fst acc) = false) (map fst d) ->
  parse_history L (map (fun kv => (KStr (fst kv), snd kv)) (history_texts L d)) acc
  = ([], Ok (acc ++ d)%list).
Proof.
  revert acc. induction d as [| [k v] d IH]; intros acc Ht Hd Hp Hacc; simpl.
  - now rewrite app_nil_r.
  - simpl in Ht, Hd. apply andb_prop in Ht. destruct Ht as [Hk Ht].
    apply andb_prop in Hd. destruct Hd as [Hfresh Hd].
    apply negb_true_iff in Hfresh.
    destruct k as [| | t]; try discriminate. simpl.
    rewrite (Hp t) by (simpl; auto).
    inversion Hacc as [| ? ? Hk0 Hrest]; subst.
    rewrite dict_set_append by exact Hk0.
    rewrite IH; auto.
    + now rewrite <- app_assoc.
    + intros t' Hin. apply Hp. simpl. auto.
    + clear -Hrest Hfresh. rewrite map_app. simpl.
      induction (map fst d) as [| y ys IHy]; [constructor |].
      inversion Hrest; subst. simpl in Hfresh.
      apply orb_false_elim in Hfresh. destruct Hfresh as [Hy Hys].
      constructor; [| now apply IHy].
      rewrite existsb_app. cbn [existsb map fst]. rewrite (key_eqb_sym y).
      replace (key_eqb (KTime t) y) with false by (symmetry; exact Hy).
      rewrite !orb_false_r. assumption.
Qed.

Lemma history_round_trip :
  persist_value L "maturity_assessments_history" (PDict h)
  = Ok (Some (PDict (history_records L h))) /\
  json_round_trip (PDict (history_records L h)) = Ok (PDict (history_records L h)) /\
  loaded_value L "maturity_assessments_history" (PDict (history_records L h))
  = Some (PDict h).
Proof.
  split; [reflexivity |]. split.
  - apply json_round_trip_safe. exact history_records_safe.
  - unfold loaded_value, load_key. simpl. unfold load_history.
    rewrite history_records_eq.
    rewrite (parse_history_all h []); auto.
    clear. induction (map fst h); constructor; auto.
Qed.
End History.

(** *** The roadmap *)

Section Roadmap.
Variable L : Library.
Variable d : pydict.
Hypothesis Hkeys : forallb is_str_key (map fst d) = true.
Hypothesis Hdistinct : distinct_strings (map (fun kv => key_name (fst kv)) d) = true.
Hypothesis Hframes :
  forall cat v, In (cat, v) d ->
    exists df, v = PFrame df /\
               json_safe (to_dict_records L df) = true /\
               frame_of_records L (to_dict_records L df) = Ok df.

Lemma roadmap_records_eq :
  roadmap_records L d = map (fun kv => (fst kv, records_of L (snd kv))) d.
Proof.
  unfold roadmap_records.
  replace (flat_map (fun cd => match snd cd with
                               | PFrame df => [(fst cd, to_dict_records L df)]
                               | _ => []
                               end) d)
    with (map (fun kv : string * pyval => (KStr (fst kv), snd kv))
              (map (fun kv => (key_name (fst kv), records_of L (snd kv))) d)).
  - rewrite dict_of_pairs_distinct.
    + rewrite map_map. simpl. clear -Hkeys.
      induction d as [| [k v] l IH]; simpl in *; [reflexivity |].
      apply andb_prop in Hkeys. destruct Hkeys as [Hk Hl].
      destruct k; try discriminate. simpl. now rewrite IH.
    + rewrite map_map. simpl. now apply distinct_strings_NoDup.
  - rewrite map_map. simpl. clear Hdistinct.
    induction d as [| [k v] l IH]; simpl in *; [reflexivity |].
    apply andb_prop in Hkeys. destruct Hkeys as [Hk Hl].
    destruct (Hframes k v) as (df & -> & _ & _); [auto |].
    destruct k; try discriminate. simpl. f_equal. apply IH; auto.
    intros cat v' Hin. apply (Hframes cat v'). auto.
Qed.

Lemma roadmap_records_safe : json_safe (PDict (roadmap_records L d)) = true.
Proof.
  rewrite roadmap_records_eq. simpl. apply andb_true_intro. split.
  - rewrite forallb_forall. intros [k r] Hin. apply in_map_iff in Hin.
    destruct Hin as ([k' v] & E & Hin). injection E as <- <-. simpl.
    destruct (Hframes k' v Hin) as (df & -> & Hs & _). simpl. rewrite Hs.
    rewrite forallb_forall in Hkeys. rewrite Hkeys; [reflexivity |].
    apply in_map_iff. exists (k', PFrame df). auto.
  - rewrite map_map. simpl. exact Hdistinct.
Qed.

Lemma frames_of_roadmap_records :
  frames_of_items L (map (fun kv => (fst kv, records_of L (snd kv))) d) = Ok d.
Proof.
  clear Hkeys Hdistinct.
  induction d as [| [k v] l IH]; simpl; [reflexivity |].
  destruct (Hframes k v) as (df & -> & _ & Hf); [simpl; auto |].
  simpl. rewrite Hf. simpl. rewrite IH; [reflexivity |].
  intros cat v' Hin. apply (Hframes cat v'). simpl. auto.
Qed.

Lemma roadmap_round_trip :
  persist_value L "roadmap_data" (PDict d) = Ok (Some (PDict (roadmap_records L d))) /\
  json_round_trip (PDict (roadmap_records L d)) = Ok (PDict (roadmap_records L d)) /\
  loaded_value L "roadmap_data" (PDict (roadmap_records L d)) = Some (PDict d).
Proof.
  split; [reflexivity |]. split.
  - apply json_round_trip_safe. exact roadmap_records_safe.
  - unfold loaded_value, load_key. simpl. unfold load_roadmap.
    rewrite roadmap_records_eq, frames_of_roadmap_records. reflexivity.
Qed.
End Roadmap.

(** *** All supported values *)

Lemma supported_round_trip (L : Library) (key : string) (v : pyval) :
  supported L key v ->
  exists stored,
    persist_value L key v = Ok stored /\
    match stored with
    | Some w =>
        json_round_trip w = Ok w /\ loaded_value L key w = Some v /\ omitted v = false
    | None => omitted v = true
    end.
Proof.
  intros [k x Hs Hh | df flat Hn Hr Hread | h Ht Hd Hs Hp | d Hk Hd Hf | k x Ho].
  - destruct (plain_round_trip L k x Hs Hh) as (P & R & V).
    exists (Some x). repeat split; auto. destruct x; try discriminate; reflexivity.
  - destruct (raci_round_trip L df flat Hn Hr Hread) as (P & R & V).
    exists (Some (PStr (to_json_split L flat))). repeat split; auto.
  - destruct (history_round_trip L h Ht Hd Hs Hp) as (P & R & V).
    exists (Some (PDict (history_records L h))). repeat split; auto.
  - destruct (roadmap_round_trip L d Hk Hd Hf) as (P & R & V).
    exists (Some (PDict (roadmap_records L d))). repeat split; auto.
  - exists None. split; [now apply omitted_round_trip | exact Ho].
Qed.

Lemma json_round_trip_encodes (w w' : pyval) :
  json_round_trip w = Ok w' -> exists j, json_encode w = Ok j.
Proof.
  unfold json_round_trip. destruct (json_encode w) as [j | e]; [eauto | discriminate].
Qed.

Lemma sset_encodes (d : sdict) (k : string) (v : pyval) :
  Forall encodes d -> encodes (k, v) -> Forall encodes (sset d k v).
Proof.
  intros Hd Hv. unfold sset. induction d as [| [x w] d IH]; simpl.
  - constructor; [exact Hv | constructor].
  - inversion Hd; subst. destruct (String.eqb k x).
    + constructor; [exact Hv | assumption].
    + constructor; [assumption | now apply IH].
Qed.

Lemma collect_state_supported (L : Library) (keys : list string)
    (st : session_state) (acc : sdict) :
  (forall k v, In k keys -> sget st k = Some v -> supported L k v) ->
  Forall encodes acc ->
  exists out, collect_state L keys st acc = Ok out /\ Forall encodes out.
Proof.
  revert acc. induction keys as [| key keys IH]; intros acc Hsup Hacc; simpl.
  - eauto.
  - destruct (sget st key) as [value |] eqn:Eg.
    + destruct (supported_round_trip L key value) as (stored & Hp & Hs).
      { apply Hsup; simpl; auto. }
      rewrite Hp. cbn [bind]. apply IH.
      * intros k v Hk. apply Hsup. simpl. auto.
      * destruct stored as [w |]; [| exact Hacc].
        apply sset_encodes; [exact Hacc |].
        destruct Hs as (R & _). exact (json_round_trip_encodes w w R).
    + apply IH; [| exact Hacc]. intros k v Hk. apply Hsup. simpl. auto.
Qed.

Lemma as_pydict_encodes (out : sdict) :
  Forall encodes out -> exists j, json_encode (as_pydict out) = Ok j.
Proof.
  intros H. unfold as_pydict. rewrite json_encode_dict.
  assert (M : exists ms, mapM encode_member (map (fun kv => (KStr (fst kv), snd kv)) out)
                         = Ok ms).
  { induction H as [| [k v] out [j Hj] _ [ms IH]]; simpl; [eauto |].
    unfold encode_member at 1. simpl in *. rewrite Hj. simpl. rewrite IH. simpl. eauto. }
  destruct M as [ms ->]. simpl. eauto.
Qed.

Lemma save_succeeds (L : Library) (st : session_state) :
  (forall k v, In k keys_to_persist -> sget st k = Some v -> supported L k v) ->
  exists j, save_app_state_json L st = Ok (Doc j, true, []).
Proof.
  intros Hsup.
  destruct (collect_state_supported L keys_to_persist st [] Hsup (Forall_nil _))
    as (out & Hc & He).
  destruct (as_pydict_encodes out He) as [j Hj].
  exists j. unfold save_app_state_json. rewrite Hc. cbn [bind]. now rewrite Hj.
Qed.

(** C1, amended.  When every persisted key of the state holds a supported
    value (a JSON-safe value: scalars, lists and mappings with string keys;
    the RACI table indexed by Activity, which the library reads back as
    written; a history keyed by timestamps whose ISO text parses back; a
    roadmap of tables whose records are JSON-safe and rebuild the table; or
    a tuple, bytes or timestamp held directly under the key), saving
    succeeds, loading the file succeeds, and every such key holds after the
    load the value it held before the save: tables come back as tables and
    history keys as timestamps.  The keys holding a tuple, bytes or a
    timestamp are left out of the file: the load leaves them as they were in
    the target state. *)
Theorem supported_values_round_trip (L : Library) (clk : Clock)
    (st st0 : session_state) :
  (forall k v, In k keys_to_persist -> sget st k = Some v -> supported L k v) ->
  exists j,
    save_app_state_json L st = Ok (Doc j, true, []) /\
    let loaded := load_app_state_json L clk (Some (Doc j)) st0 in
    snd (fst loaded) = true /\
    forall k v, In k keys_to_persist -> sget st k = Some v ->
      sget (fst (fst loaded)) k = expected_after v (sget st0 k).
Proof.
  intros Hsup. destruct (save_succeeds L st Hsup) as [j Hsave].
  exists j. split; [exact Hsave |].
  destruct (save_then_load L clk st st0 (Doc j) [] Hsave) as (Hok & _ & Hkeys).
  split; [exact Hok |].
  intros k v Hk Hget. specialize (Hkeys k Hk). rewrite Hget in Hkeys.
  destruct Hkeys as (stored & Hp & Hload).
  destruct (supported_round_trip L k v (Hsup k v Hk Hget)) as (stored' & Hp' & Hs).
  rewrite Hp in Hp'. injection Hp' as <-.
  unfold expected_after.
  destruct stored as [w |].
  - destruct Hs as (R & V & ->). destruct Hload as (w' & R' & Hl).
    rewrite R in R'. injection R' as <-. now rewrite Hl, V.
  - now rewrite Hs.
Qed.

Lemma supported_values_round_trip_witness :
  let L := Sample.library Sample.raci_flat in
  exists j,
    save_app_state_json L Sample.session = Ok (Doc j, true, []) /\
    let loaded := load_app_state_json L Sample.clock (Some (Doc j)) [] in
    snd (fst loaded) = true /\
    forall k v, In k keys_to_persist -> sget Sample.session k = Some v ->
      sget (fst (fst loaded)) k = expected_after v (sget [] k).
Proof.
  apply (supported_values_round_trip (Sample.library Sample.raci_flat) Sample.clock
           Sample.session []).
  intros k v Hin Hget. simpl in Hin.
  repeat (destruct Hin as [<- | Hin]; [vm_compute in Hget; try discriminate |]);
    try contradiction; injection Hget as <-.
  - apply supported_plain; reflexivity.
  - apply supported_omitted; reflexivity.
  - apply (supported_raci _ default_raci_frame Sample.raci_flat); reflexivity.
  - apply supported_history; try reflexivity.
    intros t [E | [E | []]]; injection E as <-; reflexivity.
  - apply supported_roadmap; try reflexivity.
    intros cat v [E | [E | [E | []]]]; injection E as <- <-;
      eexists; (split; [reflexivity | split; reflexivity]).
Defined.

(** C1, as stated, fails.  A mapping keyed by numbers comes back keyed by
    their decimal text, so the value under the key is not the one that was
    saved; and the initial rule configuration, which holds a tuple and is
    therefore not a nesting of mappings and lists, is not left out of the
    file: it comes back with a list in place of the tuple. *)
Lemma round_trip_claim_fails :
  ~ round_trip_claim (Sample.library Sample.no_frame) Sample.clock
      Sample.numbered_answers [] /\
  ~ round_trip_claim (Sample.library Sample.no_frame) Sample.clock
      Sample.initial_rules [].
Proof.
  split; intros (file & ok & msgs & Hsave & H).
  - vm_compute in Hsave. injection Hsave as <- <- <-.
    specialize (H "interview_confidence" _ (or_intror (or_intror (or_intror
                  (or_intror (or_intror (or_introl eq_refl)))))) eq_refl).
    vm_compute in H. discriminate.
  - vm_compute in Hsave. injection Hsave as <- <- <-.
    specialize (H "dq_rules_config" _ (or_intror (or_intror (or_intror (or_intror
                  (or_intror (or_intror (or_intror (or_intror (or_intror
                  (or_introl eq_refl)))))))))) eq_refl).
    vm_compute in H. discriminate.
Qed.

(** ** Loading the RACI table *)

(** What the load does with the text stored under [raci_df_json]. *)
Lemma load_raci_cases (L : Library) (text : string) (st : session_state) :
  match read_json_split L text with
  | Ok df =>
      if has_column df "Activity"
      then exists indexed,
             set_index "Activity" df = Ok indexed /\
             load_key L "raci_df_json" (PStr text) st
             = (sset st "raci_df_json" (PFrame indexed), [])
      else exists warning,
             load_key L "raci_df_json" (PStr text) st
             = (sset st "raci_df_json" (PFrame default_raci_frame), [st_warning warning])
  | Raise _ =>
      exists warning,
        load_key L "raci_df_json" (PStr text) st
        = (sset st "raci_df_json" (PFrame default_raci_frame), [st_warning warning])
  end.
Proof.
  unfold load_key. simpl. unfold load_raci.
  destruct (read_json_split L text) as [df | e]; cbn [bind catch];
    [| eexists; reflexivity].
  destruct (has_column df "Activity") eqn:Hc; [| eexists; reflexivity].
  destruct (has_column_index_of df "Activity" Hc) as [i Hi].
  unfold set_index. rewrite Hi. cbn [bind catch].
  eexists; split; reflexivity.
Qed.

(** C2.  A state file whose RACI table has the Activity column with the
    same activity on two rows: the load keeps the table, indexed by
    Activity with the repeated label, and shows no warning; it does not fall
    back to the default table. *)
Theorem repeated_activity_is_loaded_as_is :
  load_app_state_json (Sample.library Sample.duplicated_raci) Sample.clock
    (Some Sample.raci_file) []
  = ([ ("raci_df_json",
        PFrame (mkFrame (Some "Activity") ["CDO"; "IT Security"]
                  [ (CStr "Define Data Quality Rules", [CStr "A"; CStr "I"]);
                    (CStr "Define Data Quality Rules", [CStr "R"; CStr "C"]) ])) ],
     true, []).
Proof. vm_compute. reflexivity. Qed.

(** ** Loading when there is nothing to load *)

Lemma apply_defaults_forced (ds : list (string * pyval)) (st : session_state) (k : string) :
  NoDup (map fst ds) ->
  sget (apply_defaults true ds st) k
  = match dict_get String.eqb ds k with
    | Some v => Some v
    | None => sget st k
    end.
Proof.
  revert st. induction ds as [| [key value] ds IH]; intros st Hnd; [reflexivity |].
  inversion Hnd as [| ? ? Hkey Hrest]; subst.
  simpl. rewrite orb_true_r. rewrite (IH _ Hrest).
  destruct (String.eqb_spec k key) as [-> | Hne].
  - assert (dict_get String.eqb ds key = None) as ->.
    { destruct (dict_get String.eqb ds key) eqn:E; [| reflexivity].
      exfalso. apply Hkey. now apply (sget_in_keys ds key p). }
    apply sget_sset_same.
  - destruct (dict_get String.eqb ds k); [reflexivity |].
    now apply sget_sset_other.
Qed.

Lemma defaults_keys_NoDup (L : Library) (clk : Clock) : NoDup (map fst (defaults L clk)).
Proof. apply distinct_strings_NoDup. reflexivity. Qed.

Lemma init_session_state_forced (L : Library) (clk : Clock) (st : session_state)
    (k : string) :
  sget (init_session_state L clk true st) k
  = match dict_get String.eqb (defaults L clk) k with
    | Some v => Some v
    | None => sget st k
    end.
Proof.
  unfold init_session_state. rewrite andb_false_r.
  unfold ensure_dict. rewrite !orb_true_r.
  rewrite !sget_sset, apply_defaults_forced by apply defaults_keys_NoDup.
  destruct (String.eqb_spec k "state_initialized") as [-> | _]; [reflexivity |].
  destruct (String.eqb_spec k "dq_rules_config") as [-> | _]; [reflexivity |].
  destruct (String.eqb_spec k "maturity_assessments_history") as [-> | _]; [reflexivity |].
  destruct (String.eqb_spec k "maturity_evidence") as [-> | _]; [reflexivity |].
  destruct (String.eqb_spec k "interview_questions") as [-> | _]; reflexivity.
Qed.

(** C9.  When the state file does not exist, or its text does not parse, or
    it parses to something that is not an object, the load returns [False]
    (no exception leaves it: the function is total) and the state it leaves
    is the one [init_session_state(force_defaults=True)] builds: every
    built-in key holds its default, the other keys are untouched. *)
Theorem failed_load_resets_to_defaults (L : Library) (clk : Clock)
    (file : option file_content) (st : session_state) :
  file = None \/ file = Some Garbage \/
  (exists j, file = Some (Doc j) /\ is_object j = false) ->
  let loaded := load_app_state_json L clk file st in
  snd (fst loaded) = false /\
  fst (fst loaded) = init_session_state L clk true st /\
  (forall k v, dict_get String.eqb (defaults L clk) k = Some v ->
               sget (fst (fst loaded)) k = Some v) /\
  (forall k, dict_get String.eqb (defaults L clk) k = None ->
             sget (fst (fst loaded)) k = sget st k).
Proof.
  intros Hfile loaded.
  assert (E : fst loaded = (init_session_state L clk true st, false)).
  { unfold loaded, load_app_state_json.
    destruct Hfile as [-> | [-> | (j & -> & Hj)]]; try reflexivity.
    destruct j; try discriminate; reflexivity. }
  rewrite E. cbn [fst snd]. split; [reflexivity |]. split; [reflexivity |]. split.
  - intros k v H. now rewrite init_session_state_forced, H.
  - intros k H. now rewrite init_session_state_forced, H.
Qed.

Lemma failed_load_resets_to_defaults_witness :
  let L := Sample.library Sample.no_frame in
  let loaded := load_app_state_json L Sample.clock (Some Garbage) [("scratch", PInt 1)] in
  snd (fst loaded) = false /\
  sget (fst (fst loaded)) "dq_rules_config" = Some default_dq_rules_config /\
  sget (fst (fst loaded)) "scratch" = Some (PInt 1).
Proof.
  destruct (failed_load_resets_to_defaults (Sample.library Sample.no_frame) Sample.clock
              (Some Garbage) [("scratch", PInt 1)] (or_intror (or_introl eq_refl)))
    as (Hok & _ & Hdef & Hother).
  split; [exact Hok |]. split.
  - apply Hdef. reflexivity.
  - apply Hother. reflexivity.
Defined.

(** ** The consistency range after a round trip *)

Lemma default_rules_reloaded (L : Library) (clk : Clock) (st st0 : session_state)
    (file : file_content) (msgs : list ui_msg) :
  sget st "dq_rules_config" = Some default_dq_rules_config ->
  save_app_state_json L st = Ok (file, true, msgs) ->
  sget (fst (fst (load_app_state_json L clk (Some file) st0))) "dq_rules_config"
  = Some (PDict reloaded_dq_rules_config).
Proof.
  intros Hget Hsave.
  destruct (save_then_load L clk st st0 file msgs Hsave) as (_ & _ & Hkeys).
  assert (Hin : In "dq_rules_config" keys_to_persist) by (simpl; tauto).
  specialize (Hkeys _ Hin). rewrite Hget in Hkeys.
  destruct Hkeys as (stored & Hp & Hl).
  change (persist_value L "dq_rules_config" default_dq_rules_config)
    with (@Ok (option pyval) (Some default_dq_rules_config)) in Hp.
  injection Hp as <-. destruct Hl as (w' & Hr & Hl).
  change (json_round_trip default_dq_rules_config)
    with (Ok (PDict reloaded_dq_rules_config)) in Hr.
  injection Hr as <-. exact Hl.
Qed.

(** C10.  On a non-empty dataset: with the consistency column configured
    and present, a configured range that is not a tuple of two values makes
    the consistency result the "N/A" sentinel.  The rule configuration the
    application starts with holds the range as a tuple; after the state is
    saved and loaded it holds the list [1, 5], and the consistency result is
    then "N/A" although the column is present. *)
Theorem consistency_range_must_be_a_tuple (L : Library) (clk : Clock) (df : DataFrame) :
  df_empty df = false ->
  (forall config c range,
     configured df config "consistency_col" c ->
     dict_get key_eqb config (KStr "consistency_range") = Some range ->
     (forall lo hi, range <> PTuple [lo; hi]) ->
     consistency_check L df config = Ok (PStr "N/A (Col/Range missing)", None) /\
     match run_mock_dama_checks L clk (Some df) config with
     | Ok (results, _) =>
         sget results "Consistency" = Some (PStr "N/A (Col/Range missing)")
     | Raise _ => config_typed config = false
     end) /\
  (forall st st0 file msgs,
     sget st "dq_rules_config" = Some default_dq_rules_config ->
     save_app_state_json L st = Ok (file, true, msgs) ->
     sget (fst (fst (load_app_state_json L clk (Some file) st0))) "dq_rules_config"
     = Some (PDict reloaded_dq_rules_config)) /\
  py_get reloaded_dq_rules_config "consistency_range" = PList [PInt 1; PInt 5] /\
  (has_column df "SatisfactionScore" = true ->
   consistency_check L df reloaded_dq_rules_config
   = Ok (PStr "N/A (Col/Range missing)", None)).
Proof.
  intros Hne. split; [| split; [| split]].
  - intros config c range Hc Hr Hs.
    now apply (consistency_needs_a_pair L clk df config c range).
  - intros st st0 file msgs. apply default_rules_reloaded.
  - reflexivity.
  - intros Hcol.
    apply (consistency_needs_a_pair L clk df reloaded_dq_rules_config
             "SatisfactionScore" (PList [PInt 1; PInt 5])); auto.
    + repeat split. exact Hcol.
    + intros lo hi. discriminate.
Qed.

Lemma consistency_range_must_be_a_tuple_witness :
  let L := Sample.library Sample.no_frame in
  df_empty Sample.customers = false /\
  consistency_check L Sample.customers (Sample.config_of default_dq_rules_config)
  = Ok (PFloat (750 # 10), Some 1%nat) /\
  sget (fst (fst (load_app_state_json L Sample.clock
                    (Some (Doc (JObj [ ("dq_rules_config",
                                        match json_encode default_dq_rules_config with
                                        | Ok j => j
                                        | Raise _ => JNull
                                        end) ])))
                    [])))
       "dq_rules_config"
  = Some (PDict reloaded_dq_rules_config) /\
  consistency_check L Sample.customers reloaded_dq_rules_config
  = Ok (PStr "N/A (Col/Range missing)", None).
Proof.
  destruct (consistency_range_must_be_a_tuple (Sample.library Sample.no_frame)
              Sample.clock Sample.customers eq_refl) as (_ & Hload & _ & Hna).
  split; [reflexivity |]. split; [reflexivity |]. split.
  - apply (Hload Sample.initial_rules [] _ []); reflexivity.
  - apply Hna. reflexivity.
Defined.
